(** * sol-meta: the contract mocker

    A shallow embedding of [packages/sol-meta/src/contractMocker.ts] and the
    properties of [mockContract] that its specification states.

    [mockContract] looks a contract up in a source collection, flattens its
    inheritance hierarchy, checks that every parent constructor that takes
    arguments has been given some, classifies the abstract functions into
    scripted and mocked ones and assembles a new source unit holding the
    mock contract.

    JavaScript objects used as dictionaries are finite maps ([gmap]) of
    their own properties, under the properties that every plain object
    inherits from [Object.prototype]: the [in] operator and a property read
    see both. Arrays are lists; [throw] is the [Throw] outcome of a small
    exception monad, and what a call writes to the console is kept beside
    its outcome. The modules that contractMocker.ts imports are parameters
    of the development. *)

From Stdlib Require Import String Ascii List Bool.
From stdpp Require Import base option list strings gmap.

Open Scope string_scope.

(** ** Exceptions *)

(** Why the engine raises a [TypeError] in [mockContract]: a property of
    [undefined] is read, or [in] is applied to [undefined]. The wording of
    the message is the engine's and is not modelled. *)
Inductive TypeErrorCause : Type :=
| PropertyOfUndefined (property : string)
| InOperatorOnUndefined (key : string).

(** The values thrown by the code: [new Error(message)], and the
    [TypeError]s of the engine. *)
Inductive exn : Type :=
| Error (message : string)
| TypeError (cause : TypeErrorCause).

(** The outcome of a call: it throws or it returns. *)
Inductive exc (A : Type) : Type :=
| Throw (e : exn)
| Return (a : A).

Arguments Throw {A} e.
Arguments Return {A} a.

#[global] Instance exc_ret : MRet exc := fun _ a => Return a.
#[global] Instance exc_bind : MBind exc := fun _ _ f c =>
  match c with
  | Throw e => Throw e
  | Return a => f a
  end.

(** What a call leaves behind: the lines it wrote with [console.log], each
    the set of keys that was printed, and its outcome. *)
Record Run (A : Type) : Type := {
  console : list (gset string);
  outcome : exc A
}.

Arguments console {A} _.
Arguments outcome {A} _.

(** A call that writes nothing. *)
Definition silent {A : Type} (result : exc A) : Run A :=
  {| console := []; outcome := result |}.

(** [array.forEach(f)]: calls [f] on every element in order; the first
    exception ends the loop. *)
Fixpoint forEach {A : Type} (l : list A) (f : A -> exc unit) : exc unit :=
  match l with
  | [] => Return tt
  | x :: rest => _ ← f x; forEach rest f
  end.

(** [array.map(f)] for a callback that may throw. *)
Fixpoint mapExc {A B : Type} (f : A -> exc B) (l : list A) : exc (list B) :=
  match l with
  | [] => Return []
  | x :: rest => y ← f x; ys ← mapExc f rest; Return (y :: ys)
  end.

(** Modelled from the spec: [utils.flatMap] is in utils.ts, which is not part
    of the sources at hand. A single input member may expand to zero or more
    output declarations, and the outputs keep the order of the inputs: the
    callback runs on every element in order and the results are
    concatenated. *)
Fixpoint flatMap {A B : Type} (l : list A) (f : A -> exc (list B))
  : exc (list B) :=
  match l with
  | [] => Return []
  | x :: rest => ys ← f x; zs ← flatMap rest f; Return (ys ++ zs)%list
  end.

(** Modelled from the spec: [utils.objectFilter] is in utils.ts, which is not
    part of the sources at hand. It keeps the entries of an object that the
    predicate accepts ("filtered to only the ancestors actually requiring
    arguments"). *)
Definition objectFilter {V : Type} (obj : gmap string V)
    (f : string -> V -> bool) : gmap string V :=
  filter (fun kv => f kv.1 kv.2 = true) obj.

(** ** Objects and their inherited properties *)

(** The properties that a plain object inherits from [Object.prototype]
    ([Object.getOwnPropertyNames(Object.prototype)]). All of them are legal
    names of Solidity contracts and functions. *)
Definition objectPrototype : list string :=
  [ "constructor"; "__defineGetter__"; "__defineSetter__"; "hasOwnProperty";
    "__lookupGetter__"; "__lookupSetter__"; "isPrototypeOf";
    "propertyIsEnumerable"; "toString"; "valueOf"; "__proto__";
    "toLocaleString" ].

Definition inherited (key : string) : bool :=
  bool_decide (key ∈ objectPrototype).

(** What a property read [obj[key]] gives: the value of an own property,
    the function (or, for [__proto__], the object) inherited under that
    name, or [undefined]. *)
Inductive Property (V : Type) : Type :=
| Own (value : V)
| Inherited (key : string)
| Undefined.

Arguments Own {V} value.
Arguments Inherited {V} key.
Arguments Undefined {V}.

(** [obj[key]] *)
Definition getProperty {V : Type} (obj : gmap string V) (key : string)
  : Property V :=
  match obj !! key with
  | Some value => Own value
  | None => if inherited key then Inherited key else Undefined
  end.

(** [key in obj]: own and inherited properties alike. *)
Definition hasProperty {V : Type} (obj : gmap string V) (key : string)
  : bool :=
  bool_decide (is_Some (obj !! key)) || inherited key.

(** ** The syntax tree of solidity-parser-antlr, as far as the mocker reads
    or builds it *)

Inductive NodeType : Type :=
| SourceUnitT
| PragmaDirectiveT
| ImportDirectiveT
| ContractDefinitionT
| InheritanceSpecifierT
| FunctionDefinitionT
| StateVariableDeclarationT
| EventDefinitionT
| ModifierDefinitionT
| StructDefinitionT
| EnumDefinitionT
| UsingForDeclarationT.

#[global] Instance NodeType_eq_dec : EqDecision NodeType.
Proof. solve_decision. Defined.

Inductive ContractKind : Type := Contract | Interface | Library.

Inductive TypeName : Type :=
| ElementaryTypeName (name : string)
| UserDefinedTypeName (namePath : string).

Record ParameterNode : Type := {
  param_typeName : TypeName;
  param_name : option string
}.

(** [ParameterList]: the code reads [node.parameters.parameters]. *)
Record ParameterList : Type := {
  parameters : list ParameterNode
}.

(** A function body; the mocker only tests whether there is one. *)
Record Block : Type := {
  statements : list string
}.

(** [name] is [null] for a constructor and the empty string for the fallback
    function; [body] is [null] for a function without implementation. *)
Record FunctionDefinition : Type := {
  func_name : option string;
  func_parameters : ParameterList;
  func_returnParameters : option ParameterList;
  func_body : option Block;
  func_visibility : string;
  func_stateMutability : option string;
  func_isConstructor : bool
}.

(** The members of a contract. Only function definitions are looked into. *)
Inductive ContractMember : Type :=
| FunctionDefinitionNode (func : FunctionDefinition)
| StateVariableDeclaration (text : string)
| EventDefinition (text : string)
| ModifierDefinition (text : string)
| StructDefinition (text : string)
| EnumDefinition (text : string)
| UsingForDeclaration (text : string).

Definition memberType (node : ContractMember) : NodeType :=
  match node with
  | FunctionDefinitionNode _ => FunctionDefinitionT
  | StateVariableDeclaration _ => StateVariableDeclarationT
  | EventDefinition _ => EventDefinitionT
  | ModifierDefinition _ => ModifierDefinitionT
  | StructDefinition _ => StructDefinitionT
  | EnumDefinition _ => EnumDefinitionT
  | UsingForDeclaration _ => UsingForDeclarationT
  end.

Record InheritanceSpecifier : Type := {
  baseName : TypeName
}.

Record ContractDefinition : Type := {
  kind : ContractKind;
  name : string;
  baseContracts : list InheritanceSpecifier;
  subNodes : list ContractMember
}.

(** The children of a source unit. *)
Inductive SourceUnitChild : Type :=
| PragmaDirective (pragma_name pragma_value : string)
| ImportDirective (import_path : string)
    (symbolAliases : option (list (string * string)))
| ContractDefinitionNode (contract : ContractDefinition).

Definition childType (node : SourceUnitChild) : NodeType :=
  match node with
  | PragmaDirective _ _ => PragmaDirectiveT
  | ImportDirective _ _ => ImportDirectiveT
  | ContractDefinitionNode _ => ContractDefinitionT
  end.

Record SourceUnit : Type := {
  children : list SourceUnitChild
}.

(** ** The source collection *)

(** One entry of the [SourceCollection]: the parsed file, the contracts it
    defines and the contracts its names resolve to. *)
Record SourceInfo : Type := {
  parsed : SourceUnit;
  contracts : gmap string ContractDefinition;
  scope : gmap string ContractDefinition
}.

(** ** The flattener, seen from its caller *)

(** [flattenContract(contract, resolve)] is in flattener.ts, which is not
    part of the sources at hand. Its call is a finite dialogue with the
    [resolve] callback that [mockContract] passes: it either returns the
    flattened contract and the list of parents, or asks the callback for a
    name and goes on with the answer, or throws. It has no handler of its
    own, so what the callback throws leaves [flattenContract]. What it is
    given and what the callback answers are property reads, which may be an
    inherited function instead of a contract. *)
Inductive Flattening : Type :=
| Flattened (flat : ContractDefinition) (parents : list ContractDefinition)
| Resolve (name : string)
    (continue : Property ContractDefinition -> Flattening)
| FlattenThrow (e : exn).

Fixpoint runFlattening
    (resolve : string -> Run (Property ContractDefinition))
    (t : Flattening) : Run (ContractDefinition * list ContractDefinition) :=
  match t with
  | Flattened flat parents => silent (Return (flat, parents))
  | Resolve name continue =>
      let answer := resolve name in
      match outcome answer with
      | Throw e => {| console := console answer; outcome := Throw e |}
      | Return value =>
          let rest := runFlattening resolve (continue value) in
          {| console := (console answer ++ console rest)%list;
             outcome := outcome rest |}
      end
  | FlattenThrow e => silent (Throw e)
  end.

(** The callback is asked to resolve [name] at some point of the dialogue
    that [resolve] drives. *)
Inductive asksFor (resolve : string -> Run (Property ContractDefinition))
  : Flattening -> string -> Prop :=
| asks_now name continue :
    asksFor resolve (Resolve name continue) name
| asks_later name continue value later :
    outcome (resolve name) = Return value ->
    asksFor resolve (continue value) later ->
    asksFor resolve (Resolve name continue) later.

(** ** contractMocker.ts *)

Definition quote : string := String (ascii_of_nat 34) EmptyString.

(** [mockContractName = contractName => `${contractName}Mock`] *)
Definition mockContractName (contractName : string) : string :=
  contractName +:+ "Mock".

(** The three errors of [mockContract], by the message each [throw] builds. *)
Definition ContractNotFoundError (contractName path : string) : exn :=
  Error ("Could not find contract " +:+ contractName +:+ " in " +:+ quote
         +:+ path +:+ quote +:+ ".").

Definition ScopeResolutionError (name path : string) : exn :=
  Error ("Contract " +:+ name +:+ " not in scope of " +:+ path +:+ ".").

Definition MissingConstructorArgsError (name contractName : string) : exn :=
  Error ("No arguments for constructor " +:+ name +:+ " in " +:+ contractName
         +:+ ".").

(** Reading [.contracts] of [sources[path]] when [sources[path]] is
    [undefined]. *)
Definition UndefinedSourceInfo : exn :=
  TypeError (PropertyOfUndefined "contracts").

(** [contractName in sourceInfo.contracts] when [sources[path]] is an
    inherited function: its [contracts] property is [undefined]. *)
Definition UndefinedContracts (contractName : string) : exn :=
  TypeError (InOperatorOnUndefined contractName).

(** [name => { if (!(name in sourceInfo.scope)) {
    console.log(Object.keys(sourceInfo.scope)); throw ...; } return
    sourceInfo.scope[name]; }] *)
Definition resolveInScope (sourceInfo : SourceInfo) (path : string)
    (name : string) : Run (Property ContractDefinition) :=
  if hasProperty (scope sourceInfo) name
  then silent (Return (getProperty (scope sourceInfo) name))
  else {| console := [dom (scope sourceInfo)];
          outcome := Throw (ScopeResolutionError name path) |}.

(** [node.type === FunctionDefinition && node.isConstructor &&
    node.parameters.parameters.length > 0] *)
Definition isConstructorWithParameters (node : ContractMember) : bool :=
  match node with
  | FunctionDefinitionNode func =>
      func_isConstructor func
      && (0 <? length (parameters (func_parameters func)))%nat
  | _ => false
  end.

(** [({ subNodes }) => subNodes.some(...)]: the parent declares a
    constructor with at least one parameter. *)
Definition requiresArguments (parent : ContractDefinition) : bool :=
  existsb isConstructorWithParameters (subNodes parent).

(** [parents.filter(({ subNodes }) => subNodes.some(...)).map(({ name }) =>
    name)]: the names of the parents whose constructor requires arguments. *)
Definition constructorsNeedingArgs (parents : list ContractDefinition)
  : list string :=
  map name (List.filter requiresArguments parents).

(** [flat.subNodes.filter(node => node.type === FunctionDefinition &&
    node.body === null) as S.FunctionDefinition[]] *)
Definition abstractFunction (node : ContractMember)
  : option FunctionDefinition :=
  match node with
  | FunctionDefinitionNode func =>
      match func_body func with
      | None => Some func
      | Some _ => None
      end
  | _ => None
  end.

Definition abstractsOf (flat : ContractDefinition) : list FunctionDefinition :=
  omap abstractFunction (subNodes flat).

(** The truth value of [name] in [name && ...]: [null] and the empty string
    are false. *)
Definition truthy (name : option string) : bool :=
  match name with
  | None => false
  | Some EmptyString => false
  | Some (String _ _) => true
  end.

(** [name in obj], for a name that may be [null]. The filters test it
    behind [name &&], so it is never reached with [null]. *)
Definition hasKey {V : Type} (obj : gmap string V) (name : option string)
  : bool :=
  match name with
  | None => false
  | Some key => hasProperty obj key
  end.

Section ContractMocker.

(** [utils.Litteral] (utils.ts) and [FunctionScript] (scripter.ts): the
    mocker passes their values on and never looks into them. *)
Context {Litteral FunctionScript : Type}.

(** [ContractMockOptions] *)
Record ContractMockOptions : Type := {
  constructors : gmap string (list Litteral);
  scripted : gmap string (list FunctionScript)
}.

(** The functions that [mockContract] imports from the other modules of
    the package. Each of them may throw. [flattenContract] receives
    [sourceInfo.contracts[contractName]] and [scriptFunction] receives
    [options.scripted[func.name || '']], as the property reads give them. *)
Variable flattenContract : Property ContractDefinition -> Flattening.
Variable makeConstructor : gmap string (list Litteral) -> exc ContractMember.
Variable exposeNode : ContractMember -> exc (list ContractMember).
Variable scriptFunction :
  FunctionDefinition -> Property (list FunctionScript) -> exc ContractMember.
Variable stubFunction : FunctionDefinition -> exc (list ContractMember).
Variable nonAbstractForcer : string -> exc ContractDefinition.
Variable userType : string -> TypeName.

(** [constructors.forEach(name => { if (!(name in options.constructors))
    throw ... })] *)
Definition checkConstructors (options : ContractMockOptions)
    (contractName : string) (names : list string) : exc unit :=
  forEach names (fun name =>
    if hasProperty (constructors options) name then Return tt
    else Throw (MissingConstructorArgsError name contractName)).

(** [abstracts.filter(({ name }) => name && name in options.scripted)] *)
Definition scriptedFunctions (options : ContractMockOptions)
    (abstracts : list FunctionDefinition) : list FunctionDefinition :=
  List.filter
    (fun func => truthy (func_name func)
                 && hasKey (scripted options) (func_name func))
    abstracts.

(** [abstracts.filter(({ name }) => name && !(name in options.scripted))] *)
Definition mockedFunctions (options : ContractMockOptions)
    (abstracts : list FunctionDefinition) : list FunctionDefinition :=
  List.filter
    (fun func => truthy (func_name func)
                 && negb (hasKey (scripted options) (func_name func)))
    abstracts.

(** [utils.objectFilter(options.constructors, (key, _) =>
    constructors.includes(key))]: the argument of [makeConstructor]. *)
Definition forwardedArguments (options : ContractMockOptions)
    (names : list string) : gmap string (list Litteral) :=
  objectFilter (constructors options)
    (fun key _ => bool_decide (key ∈ names)).

(** [func => scriptFunction(func, options.scripted[func.name || ''])] *)
Definition scriptOne (options : ContractMockOptions)
    (func : FunctionDefinition) : exc ContractMember :=
  scriptFunction func
    (getProperty (scripted options) (default EmptyString (func_name func))).

(** The [subNodes] array of the mock, built left to right. *)
Definition mockSubNodes (options : ContractMockOptions)
    (flat : ContractDefinition) (names : list string)
  : exc (list ContractMember) :=
  let abstracts := abstractsOf flat in
  forwarder ← makeConstructor (forwardedArguments options names);
  exposed ← flatMap (subNodes flat) exposeNode;
  scripts ← mapExc (scriptOne options) (scriptedFunctions options abstracts);
  stubs ← flatMap (mockedFunctions options abstracts) stubFunction;
  Return (forwarder :: exposed ++ scripts ++ stubs)%list.

(** [parsed.children.filter(({ type }) => type === PragmaDirective)] *)
Definition pragmasOf (unit : SourceUnit) : list SourceUnitChild :=
  List.filter (fun child => bool_decide (childType child = PragmaDirectiveT))
    (children unit).

(** The [mock] contract definition: it is named after the contract and
    inherits from it alone. *)
Definition buildMock (options : ContractMockOptions)
    (contractName : string) (flat : ContractDefinition)
    (names : list string) : exc ContractDefinition :=
  members ← mockSubNodes options flat names;
  Return {| kind := Contract;
            name := mockContractName contractName;
            baseContracts := [ {| baseName := userType contractName |} ];
            subNodes := members |}.

(** What [mockContract] does once the constructor arguments are checked:
    it classifies the abstract functions, builds the mock and wraps it in
    a source unit. *)
Definition assemble (sourceInfo : SourceInfo) (path contractName : string)
    (options : ContractMockOptions) (flat : ContractDefinition)
    (names : list string) : exc SourceUnit :=
  mock ← buildMock options contractName flat names;
  forcer ← nonAbstractForcer (mockContractName contractName);
  Return
    {| children :=
         (pragmasOf (parsed sourceInfo)
          ++ [ ImportDirective path None;
               ContractDefinitionNode mock;
               ContractDefinitionNode forcer ])%list |}.

(** What [mockContract] does once the contract has passed the guard of
    line 32: it flattens [sourceInfo.contracts[contractName]], checks the
    constructor arguments and assembles the mock. The console holds what
    the callback wrote during the flattening. *)
Definition flattenAndMock (sourceInfo : SourceInfo)
    (path contractName : string) (options : ContractMockOptions)
    (contract : Property ContractDefinition) : Run SourceUnit :=
  let flattened :=
    runFlattening (resolveInScope sourceInfo path) (flattenContract contract)
  in
  {| console := console flattened;
     outcome :=
       '(flat, parents) ← outcome flattened;
       let names := constructorsNeedingArgs parents in
       _ ← checkConstructors options contractName names;
       assemble sourceInfo path contractName options flat names |}.

(** [sources[path]] is the entry, or [undefined], whose [contracts] cannot
    be read, or an inherited function, whose [contracts] is [undefined] and
    cannot stand on the right of [in]. *)
Definition mockContract (sources : gmap string SourceInfo)
    (path contractName : string) (options : ContractMockOptions)
  : Run SourceUnit :=
  match getProperty sources path with
  | Undefined => silent (Throw UndefinedSourceInfo)
  | Inherited _ => silent (Throw (UndefinedContracts contractName))
  | Own sourceInfo =>
      if hasProperty (contracts sourceInfo) contractName
      then flattenAndMock sourceInfo path contractName options
             (getProperty (contracts sourceInfo) contractName)
      else silent (Throw (ContractNotFoundError contractName path))
  end.

End ContractMocker.

(** ** A concrete instance: the [Token] scenario

    Simple stand-ins for the imported functions and a small source
    collection, to run [mockContract] on. *)
Module Scenario.

(** Asks the callback for every name, in order. *)
Fixpoint resolveAll (names : list string)
    (continue : list (Property ContractDefinition) -> Flattening)
  : Flattening :=
  match names with
  | [] => continue []
  | name :: rest =>
      Resolve name (fun contract =>
        resolveAll rest (fun others => continue (contract :: others)))
  end.

(** The contracts among the answers, when all of them are contracts. *)
Fixpoint contractsOf (answers : list (Property ContractDefinition))
  : option (list ContractDefinition) :=
  match answers with
  | [] => Some []
  | Own contract :: rest => cons contract <$> contractsOf rest
  | _ :: _ => None
  end.

(** What the stand-ins throw when they are handed an inherited function. *)
Definition NotAContract : exn := Error "not a contract".
Definition NotAScript : exn := Error "not a script".

Definition baseNameOf (base : InheritanceSpecifier) : string :=
  match baseName base with
  | ElementaryTypeName name => name
  | UserDefinedTypeName namePath => namePath
  end.

(** The members of the parents, then the contract's own. *)
Definition merge (contract : ContractDefinition)
    (parents : list ContractDefinition) : ContractDefinition :=
  {| kind := kind contract;
     name := name contract;
     baseContracts := [];
     subNodes := (flat_map subNodes parents ++ subNodes contract)%list |}.

(** A one-level flattener: it resolves the direct parents and merges. It
    throws when the contract or a parent is no contract. *)
Definition flattenContract (contract : Property ContractDefinition)
  : Flattening :=
  match contract with
  | Own contract =>
      resolveAll (map baseNameOf (baseContracts contract)) (fun answers =>
        match contractsOf answers with
        | Some parents => Flattened (merge contract parents) parents
        | None => FlattenThrow NotAContract
        end)
  | _ => FlattenThrow NotAContract
  end.

Definition emptyBody : Block := {| statements := [] |}.

(** A constructor that lists the parents it forwards arguments to. *)
Definition forwarding (parents : list string) : ContractMember :=
  FunctionDefinitionNode
    {| func_name := None;
       func_parameters := {| parameters := [] |};
       func_returnParameters := None;
       func_body := Some {| statements := parents |};
       func_visibility := "public";
       func_stateMutability := None;
       func_isConstructor := true |}.

Definition makeConstructor (args : gmap string (list string))
  : exc ContractMember :=
  Return (forwarding (map_to_list args).*1).

Definition exposeNode (node : ContractMember) : exc (list ContractMember) :=
  match node with
  | StateVariableDeclaration text =>
      Return [ StateVariableDeclaration (text +:+ "Get") ]
  | _ => Return []
  end.

Definition withBody (func : FunctionDefinition) (body : Block)
  : FunctionDefinition :=
  {| func_name := func_name func;
     func_parameters := func_parameters func;
     func_returnParameters := func_returnParameters func;
     func_body := Some body;
     func_visibility := func_visibility func;
     func_stateMutability := func_stateMutability func;
     func_isConstructor := func_isConstructor func |}.

Definition scriptFunction (func : FunctionDefinition)
    (script : Property (list string)) : exc ContractMember :=
  match script with
  | Own values =>
      Return (FunctionDefinitionNode
                (withBody func {| statements := values |}))
  | Inherited _ => Throw NotAScript
  | Undefined => Throw (TypeError (PropertyOfUndefined "map"))
  end.

Definition stubFunction (func : FunctionDefinition)
  : exc (list ContractMember) :=
  Return [ FunctionDefinitionNode (withBody func emptyBody) ].

Definition nonAbstractForcer (contractName : string)
  : exc ContractDefinition :=
  Return {| kind := Contract;
            name := contractName +:+ "NonAbstractForcer";
            baseContracts := [];
            subNodes := [] |}.

Definition userType (contractName : string) : TypeName :=
  UserDefinedTypeName contractName.

(** [mockContract] with these stand-ins. *)
Definition mock :=
  mockContract flattenContract makeConstructor exposeNode scriptFunction
    stubFunction nonAbstractForcer userType.

Definition function (name : option string) (params : list ParameterNode)
    (body : option Block) (isConstructor : bool) : FunctionDefinition :=
  {| func_name := name;
     func_parameters := {| parameters := params |};
     func_returnParameters := None;
     func_body := body;
     func_visibility := "public";
     func_stateMutability := None;
     func_isConstructor := isConstructor |}.

Definition address (name : string) : ParameterNode :=
  {| param_typeName := ElementaryTypeName "address";
     param_name := Some name |}.

(** [contract Ownable { address owner; constructor(address o) {...} }] *)
Definition Ownable : ContractDefinition :=
  {| kind := Contract;
     name := "Ownable";
     baseContracts := [];
     subNodes :=
       [ StateVariableDeclaration "owner";
         FunctionDefinitionNode
           (function None [address "o"] (Some emptyBody) true) ] |}.

(** [contract Pausable { constructor(address p) {...} }] *)
Definition Pausable : ContractDefinition :=
  {| kind := Contract;
     name := "Pausable";
     baseContracts := [];
     subNodes :=
       [ FunctionDefinitionNode
           (function None [address "p"] (Some emptyBody) true) ] |}.

(** [contract Plain { constructor() {...} }] *)
Definition Plain : ContractDefinition :=
  {| kind := Contract;
     name := "Plain";
     baseContracts := [];
     subNodes :=
       [ FunctionDefinitionNode (function None [] (Some emptyBody) true) ] |}.

Definition rate : FunctionDefinition :=
  function (Some "rate") [] None false.

Definition cap : FunctionDefinition :=
  function (Some "cap") [] None false.

(** The fallback function without body: [function () external;] *)
Definition fallback : FunctionDefinition :=
  function (Some EmptyString) [] None false.

Definition inherits (parent : string) : InheritanceSpecifier :=
  {| baseName := UserDefinedTypeName parent |}.

(** [contract Token is Ownable, Plain { function rate(); function cap();
    event Transfer; }] *)
Definition Token : ContractDefinition :=
  {| kind := Contract;
     name := "Token";
     baseContracts := [ inherits "Ownable"; inherits "Plain" ];
     subNodes :=
       [ FunctionDefinitionNode rate;
         FunctionDefinitionNode cap;
         EventDefinition "Transfer" ] |}.

(** [contract Vault is Ownable, Pausable {}] *)
Definition Vault : ContractDefinition :=
  {| kind := Contract;
     name := "Vault";
     baseContracts := [ inherits "Ownable"; inherits "Pausable" ];
     subNodes := [] |}.

(** [contract Orphan is Missing {}]: its parent is not in scope. *)
Definition Orphan : ContractDefinition :=
  {| kind := Contract;
     name := "Orphan";
     baseContracts := [ inherits "Missing" ];
     subNodes := [] |}.

(** [contract Wallet { function () external; }] *)
Definition Wallet : ContractDefinition :=
  {| kind := Contract;
     name := "Wallet";
     baseContracts := [];
     subNodes := [ FunctionDefinitionNode fallback ] |}.

(** [contract Printer is toString {}]: no contract [toString] is in scope,
    but every object has a property of that name. *)
Definition Printer : ContractDefinition :=
  {| kind := Contract;
     name := "Printer";
     baseContracts := [ inherits "toString" ];
     subNodes := [] |}.

(** An abstract function named like an inherited property:
    [function toString() public;] *)
Definition describe : FunctionDefinition :=
  function (Some "toString") [] None false.

(** [contract Describable { function toString() public; }] *)
Definition Describable : ContractDefinition :=
  {| kind := Contract;
     name := "Describable";
     baseContracts := [];
     subNodes := [ FunctionDefinitionNode describe ] |}.

(** [contract valueOf { constructor(address v) {...} }]: a contract named
    like an inherited property, with a constructor to call. *)
Definition ValueOf : ContractDefinition :=
  {| kind := Contract;
     name := "valueOf";
     baseContracts := [];
     subNodes :=
       [ FunctionDefinitionNode
           (function None [address "v"] (Some emptyBody) true) ] |}.

(** [contract Priced is valueOf {}] *)
Definition Priced : ContractDefinition :=
  {| kind := Contract;
     name := "Priced";
     baseContracts := [ inherits "valueOf" ];
     subNodes := [] |}.

Definition tokenSol : SourceInfo :=
  {| parsed :=
       {| children :=
            [ PragmaDirective "solidity" "^0.4.24";
              ImportDirective "Ownable.sol" None;
              PragmaDirective "experimental" "ABIEncoderV2";
              ContractDefinitionNode Token ] |};
     contracts :=
       {[ "Token" := Token; "Vault" := Vault; "Orphan" := Orphan;
          "Wallet" := Wallet; "Printer" := Printer;
          "Describable" := Describable; "Priced" := Priced ]};
     scope :=
       {[ "Token" := Token; "Vault" := Vault; "Orphan" := Orphan;
          "Wallet" := Wallet; "Printer" := Printer;
          "Describable" := Describable; "Priced" := Priced;
          "Ownable" := Ownable; "Pausable" := Pausable; "Plain" := Plain;
          "valueOf" := ValueOf ]} |}.

Definition sources : gmap string SourceInfo :=
  {[ "Token.sol" := tokenSol ]}.

(** [{ constructors: { Ownable: ['0x01'], Plain: [], Other: ['1'] },
      scripted: { rate: ['5', '7'] } }] *)
Definition options : @ContractMockOptions string string :=
  {| constructors :=
       {[ "Ownable" := ["0x01"]; "Plain" := []; "Other" := ["1"] ]};
     scripted := {[ "rate" := ["5"; "7"] ]} |}.

Definition noOptions : @ContractMockOptions string string :=
  {| constructors := ∅; scripted := ∅ |}.

Definition pragmas : list SourceUnitChild :=
  [ PragmaDirective "solidity" "^0.4.24";
    PragmaDirective "experimental" "ABIEncoderV2" ].

(** What [mock sources "Token.sol" "Token" options] returns. *)
Definition tokenMock : SourceUnit :=
  {| children :=
       (pragmas
        ++ [ ImportDirective "Token.sol" None;
             ContractDefinitionNode
               {| kind := Contract;
                  name := "TokenMock";
                  baseContracts := [ inherits "Token" ];
                  subNodes :=
                    [ forwarding ["Ownable"];
                      StateVariableDeclaration "ownerGet";
                      FunctionDefinitionNode
                        (withBody rate {| statements := ["5"; "7"] |});
                      FunctionDefinitionNode (withBody cap emptyBody) ] |};
             ContractDefinitionNode
               {| kind := Contract;
                  name := "TokenMockNonAbstractForcer";
                  baseContracts := [];
                  subNodes := [] |} ])%list |}.

(** What [mock sources "Token.sol" "Wallet" noOptions] returns: the
    fallback function of [Wallet] gets no stub. *)
Definition walletMock : SourceUnit :=
  {| children :=
       (pragmas
        ++ [ ImportDirective "Token.sol" None;
             ContractDefinitionNode
               {| kind := Contract;
                  name := "WalletMock";
                  baseContracts := [ inherits "Wallet" ];
                  subNodes := [ forwarding [] ] |};
             ContractDefinitionNode
               {| kind := Contract;
                  name := "WalletMockNonAbstractForcer";
                  baseContracts := [];
                  subNodes := [] |} ])%list |}.



(** [options] with a script for a function that [Token] does not have. *)
Definition optionsWithSpareScript : @ContractMockOptions string string :=
  {| constructors := constructors options;
     scripted := <["total" := ["1"]]> (scripted options) |}.

(** [options] with arguments for one more contract that is no parent with a
    constructor to call. *)
Definition optionsWithSpareArguments : @ContractMockOptions string string :=
  {| constructors := <["Elsewhere" := ["2"]]> (constructors options);
     scripted := scripted options |}.

(** [options] with a script for [cap] as well. *)
Definition optionsWithCap : @ContractMockOptions string string :=
  {| constructors := constructors options;
     scripted := <["cap" := ["9"]]> (scripted options) |}.

(** What [mock sources "Token.sol" "Priced" noOptions] returns: the
    constructor of [valueOf] is given no arguments. *)
Definition pricedMock : SourceUnit :=
  {| children :=
       (pragmas
        ++ [ ImportDirective "Token.sol" None;
             ContractDefinitionNode
               {| kind := Contract;
                  name := "PricedMock";
                  baseContracts := [ inherits "Priced" ];
                  subNodes := [ forwarding [] ] |};
             ContractDefinitionNode
               {| kind := Contract;
                  name := "PricedMockNonAbstractForcer";
                  baseContracts := [];
                  subNodes := [] |} ])%list |}.

End Scenario.


(** * Properties *)

(** ** The exception monad and the list helpers *)

Lemma bind_Return {A B : Type} (c : exc A) (f : A -> exc B) (b : B) :
  (c ≫= f) = Return b <-> exists a, c = Return a /\ f a = Return b.
Proof.
  destruct c as [e | a]; simpl; split.
  - discriminate.
  - intros (a & Hc & _). discriminate.
  - intros Hf. exists a. split; [reflexivity | exact Hf].
  - intros (a' & Hc & Hf). injection Hc as ->. exact Hf.
Qed.

Lemma bind_Throw {A B : Type} (c : exc A) (f : A -> exc B) (e : exn) :
  c = Throw e -> (c ≫= f) = Throw e.
Proof. intros ->. reflexivity. Qed.

Lemma elem_of_List_filter {A : Type} (f : A -> bool) (l : list A) (x : A) :
  x ∈ List.filter f l <-> x ∈ l /\ f x = true.
Proof. rewrite !list_elem_of_In. apply filter_In. Qed.

Lemma List_filter_sublist {A : Type} (f : A -> bool) (l : list A) :
  List.filter f l `sublist_of` l.
Proof.
  induction l as [| x l IH]; simpl.
  - constructor.
  - destruct (f x); [apply sublist_skip | apply sublist_cons]; exact IH.
Qed.

Lemma forEach_app {A : Type} (f : A -> exc unit) (l1 l2 : list A) :
  forEach l1 f = Return tt -> forEach (l1 ++ l2) f = forEach l2 f.
Proof.
  induction l1 as [| x l1 IH]; simpl; [reflexivity |].
  destruct (f x) as [e | []]; simpl; [discriminate | exact IH].
Qed.

Lemma forEach_Return {A : Type} (f : A -> exc unit) (l : list A) :
  forEach l f = Return tt <-> Forall (fun x => f x = Return tt) l.
Proof.
  induction l as [| x l IH]; simpl.
  - split; [constructor | reflexivity].
  - rewrite Forall_cons. destruct (f x) as [e | []]; simpl.
    + split; [discriminate | intros [? _]; discriminate].
    + rewrite IH. tauto.
Qed.

Lemma flatMap_Return {A B : Type} (f : A -> exc (list B)) (l : list A)
    (out : list B) :
  flatMap l f = Return out
  <-> exists each, Forall2 (fun x ys => f x = Return ys) l each
                   /\ out = concat each.
Proof.
  revert out. induction l as [| x l IH]; intros out; simpl.
  - split.
    + intros [= <-]. exists []. split; [constructor | reflexivity].
    + intros (each & Heach & ->). inversion Heach. reflexivity.
  - rewrite bind_Return. split.
    + intros (ys & Hx & Hrest). apply bind_Return in Hrest as (zs & Hl & [= <-]).
      apply IH in Hl as (each & Heach & ->).
      exists (ys :: each). split; [constructor; assumption | reflexivity].
    + intros (each & Heach & ->).
      inversion Heach as [| x' ys l' each' Hx Hl]; subst.
      exists ys. split; [exact Hx |].
      apply bind_Return. exists (concat each'). split; [| reflexivity].
      apply IH. exists each'. split; [exact Hl | reflexivity].
Qed.

Lemma mapExc_Return {A B : Type} (f : A -> exc B) (l : list A)
    (out : list B) :
  mapExc f l = Return out <-> Forall2 (fun x y => f x = Return y) l out.
Proof.
  revert out. induction l as [| x l IH]; intros out; simpl.
  - split.
    + intros [= <-]. constructor.
    + intros Hout. inversion Hout. reflexivity.
  - rewrite bind_Return. split.
    + intros (y & Hx & Hrest). apply bind_Return in Hrest as (ys & Hl & [= <-]).
      constructor; [exact Hx | apply IH, Hl].
    + intros Hout. inversion Hout as [| x' y l' ys Hx Hl]; subst.
      exists y. split; [exact Hx |].
      apply bind_Return. exists ys. split; [apply IH, Hl | reflexivity].
Qed.

(** [objectFilter] keeps the entries that the predicate accepts, and only
    those. *)
Lemma lookup_objectFilter {V : Type} (obj : gmap string V)
    (f : string -> V -> bool) (key : string) (v : V) :
  objectFilter obj f !! key = Some v <-> obj !! key = Some v /\ f key v = true.
Proof. unfold objectFilter. apply map_lookup_filter_Some. Qed.

(** ** Property reads and the [in] operator *)

Lemma hasProperty_true {V : Type} (obj : gmap string V) (key : string) :
  hasProperty obj key = true
  <-> is_Some (obj !! key) \/ inherited key = true.
Proof.
  unfold hasProperty. rewrite orb_true_iff, bool_decide_eq_true. reflexivity.
Qed.

Lemma hasProperty_false {V : Type} (obj : gmap string V) (key : string) :
  hasProperty obj key = false
  <-> obj !! key = None /\ inherited key = false.
Proof.
  unfold hasProperty.
  rewrite orb_false_iff, bool_decide_eq_false, <- eq_None_not_Some.
  reflexivity.
Qed.

Lemma hasProperty_own {V : Type} (obj : gmap string V) (key : string)
    (value : V) :
  obj !! key = Some value -> hasProperty obj key = true.
Proof. intros Hown. apply hasProperty_true. left. eauto. Qed.

Lemma getProperty_own {V : Type} (obj : gmap string V) (key : string)
    (value : V) :
  getProperty obj key = Own value <-> obj !! key = Some value.
Proof.
  unfold getProperty. destruct (obj !! key) as [v |].
  - split; congruence.
  - destruct (inherited key); split; discriminate.
Qed.

Lemma getProperty_inherited {V : Type} (obj : gmap string V) (key : string) :
  obj !! key = None -> inherited key = true ->
  getProperty obj key = Inherited key.
Proof. unfold getProperty. intros -> ->. reflexivity. Qed.

Lemma getProperty_undefined {V : Type} (obj : gmap string V) (key : string) :
  obj !! key = None -> inherited key = false ->
  getProperty obj key = Undefined.
Proof. unfold getProperty. intros -> ->. reflexivity. Qed.

(** A key is in the object exactly when reading it gives a value. *)
Lemma hasProperty_getProperty {V : Type} (obj : gmap string V)
    (key : string) :
  hasProperty obj key = true <-> getProperty obj key <> Undefined.
Proof.
  rewrite hasProperty_true. unfold getProperty.
  destruct (obj !! key) as [v |] eqn:Hown; [| destruct (inherited key)].
  - split; [discriminate | eauto].
  - split; [discriminate | auto].
  - split; [intros [[v Hv] | H]; discriminate | contradiction].
Qed.

(** ** The dialogue with the flattener *)

(** A question that the callback cannot answer ends the flattening with the
    callback's exception. *)
Lemma runFlattening_asks
    (resolve : string -> Run (Property ContractDefinition))
    (t : Flattening) (name : string) (e : exn) :
  asksFor resolve t name -> outcome (resolve name) = Throw e ->
  outcome (runFlattening resolve t) = Throw e.
Proof.
  intros Hask Hthrow.
  induction Hask as [name continue | name continue value later Hres _ IH];
    simpl.
  - rewrite Hthrow. reflexivity.
  - rewrite Hres. simpl. apply IH, Hthrow.
Qed.

Lemma resolveInScope_throws (sourceInfo : SourceInfo) (path name : string) :
  hasProperty (scope sourceInfo) name = false ->
  resolveInScope sourceInfo path name
  = {| console := [dom (scope sourceInfo)];
       outcome := Throw (ScopeResolutionError name path) |}.
Proof. unfold resolveInScope. intros ->. reflexivity. Qed.

Lemma resolveInScope_returns (sourceInfo : SourceInfo) (path name : string) :
  hasProperty (scope sourceInfo) name = true ->
  resolveInScope sourceInfo path name
  = silent (Return (getProperty (scope sourceInfo) name)).
Proof. unfold resolveInScope. intros ->. reflexivity. Qed.

(** The callback writes nothing when it returns. *)
Lemma resolveInScope_silent (sourceInfo : SourceInfo) (path name : string)
    (value : Property ContractDefinition) :
  outcome (resolveInScope sourceInfo path name) = Return value ->
  console (resolveInScope sourceInfo path name) = [].
Proof.
  unfold resolveInScope.
  destruct (hasProperty (scope sourceInfo) name); [reflexivity | discriminate].
Qed.

(** The flattening that asks for a name that is in no way in scope ends
    there: the callback prints the keys of the scope and throws. *)
Lemma runFlattening_not_in_scope (sourceInfo : SourceInfo) (path : string)
    (t : Flattening) (name : string) :
  asksFor (resolveInScope sourceInfo path) t name ->
  hasProperty (scope sourceInfo) name = false ->
  runFlattening (resolveInScope sourceInfo path) t
  = {| console := [dom (scope sourceInfo)];
       outcome := Throw (ScopeResolutionError name path) |}.
Proof.
  intros Hask Hout.
  induction Hask as [name continue | name' continue value later Hres _ IH];
    simpl.
  - rewrite (resolveInScope_throws _ _ _ Hout). reflexivity.
  - rewrite Hres, (resolveInScope_silent _ _ _ _ Hres), (IH Hout).
    reflexivity.
Qed.

(** A flattening that returns has written nothing to the console. *)
Lemma runFlattening_Return_silent (sourceInfo : SourceInfo) (path : string)
    (t : Flattening) (result : ContractDefinition * list ContractDefinition) :
  outcome (runFlattening (resolveInScope sourceInfo path) t) = Return result ->
  console (runFlattening (resolveInScope sourceInfo path) t) = [].
Proof.
  induction t as [flat parents | name continue IH | e]; simpl;
    intros Hflat; [reflexivity | | discriminate].
  destruct (outcome (resolveInScope sourceInfo path name))
    as [e | value] eqn:Hres; [discriminate |].
  simpl in *. rewrite (resolveInScope_silent _ _ _ _ Hres). apply IH, Hflat.
Qed.

(** ** The parents whose constructor requires arguments *)

Lemma constructorsNeedingArgs_app (l1 l2 : list ContractDefinition) :
  constructorsNeedingArgs (l1 ++ l2)
  = (constructorsNeedingArgs l1 ++ constructorsNeedingArgs l2)%list.
Proof.
  unfold constructorsNeedingArgs. rewrite List.filter_app, map_app.
  reflexivity.
Qed.

Lemma elem_of_constructorsNeedingArgs (parents : list ContractDefinition)
    (key : string) :
  key ∈ constructorsNeedingArgs parents
  <-> exists parent, parent ∈ parents
                     /\ requiresArguments parent = true
                     /\ name parent = key.
Proof.
  unfold constructorsNeedingArgs.
  change (map name ?l) with (name <$> l).
  rewrite list_elem_of_fmap. split.
  - intros (parent & -> & Hin). apply elem_of_List_filter in Hin as [Hin Hreq].
    exists parent. auto.
  - intros (parent & Hin & Hreq & <-). exists parent. split; [reflexivity |].
    apply elem_of_List_filter. auto.
Qed.

Section MockContract.

Context {Litteral FunctionScript : Type}.

Variable flattenContract : Property ContractDefinition -> Flattening.
Variable makeConstructor : gmap string (list Litteral) -> exc ContractMember.
Variable exposeNode : ContractMember -> exc (list ContractMember).
Variable scriptFunction :
  FunctionDefinition -> Property (list FunctionScript) -> exc ContractMember.
Variable stubFunction : FunctionDefinition -> exc (list ContractMember).
Variable nonAbstractForcer : string -> exc ContractDefinition.
Variable userType : string -> TypeName.

Implicit Types (sources : gmap string SourceInfo) (sourceInfo : SourceInfo).
Implicit Types (path contractName key : string).
Implicit Types (options : @ContractMockOptions Litteral FunctionScript).
Implicit Types (flat parent : ContractDefinition).
Implicit Types (contract : Property ContractDefinition).
Implicit Types (parents : list ContractDefinition).

Local Abbreviation mock :=
  (mockContract flattenContract makeConstructor exposeNode scriptFunction
     stubFunction nonAbstractForcer userType).
Local Abbreviation assembled :=
  (assemble makeConstructor exposeNode scriptFunction stubFunction
     nonAbstractForcer userType).
Local Abbreviation flattenedAndMocked :=
  (flattenAndMock flattenContract makeConstructor exposeNode scriptFunction
     stubFunction nonAbstractForcer userType).
Local Abbreviation flattening sourceInfo path contract :=
  (runFlattening (resolveInScope sourceInfo path) (flattenContract contract)).

(** *** Checking the constructor arguments *)

Lemma checkConstructors_Return options contractName (names : list string) :
  checkConstructors options contractName names = Return tt
  <-> Forall (fun key => hasProperty (constructors options) key = true) names.
Proof.
  unfold checkConstructors. rewrite forEach_Return.
  apply Forall_iff. intros key. simpl.
  destruct (hasProperty (constructors options) key);
    split; try reflexivity; discriminate.
Qed.

Lemma checkConstructors_first options contractName
    (before after : list string) key :
  Forall (fun k => hasProperty (constructors options) k = true) before ->
  hasProperty (constructors options) key = false ->
  checkConstructors options contractName (before ++ key :: after)
  = Throw (MissingConstructorArgsError key contractName).
Proof.
  intros Hbefore Hkey. unfold checkConstructors.
  rewrite forEach_app by (apply checkConstructors_Return, Hbefore).
  simpl. rewrite Hkey. reflexivity.
Qed.

(** The first parent, in the order of [parents], that requires arguments
    and whose name is not in [options.constructors] is the one the error
    names. *)
Lemma checkConstructors_parents options contractName
    (before after : list ContractDefinition) parent :
  requiresArguments parent = true ->
  hasProperty (constructors options) (name parent) = false ->
  (forall p, p ∈ before -> requiresArguments p = true ->
             hasProperty (constructors options) (name p) = true) ->
  checkConstructors options contractName
    (constructorsNeedingArgs (before ++ parent :: after))
  = Throw (MissingConstructorArgsError (name parent) contractName).
Proof.
  intros Hreq Hnone Hbefore.
  rewrite constructorsNeedingArgs_app.
  change (parent :: after) with ([parent] ++ after)%list.
  rewrite constructorsNeedingArgs_app.
  unfold constructorsNeedingArgs at 2. simpl. rewrite Hreq. simpl.
  apply checkConstructors_first; [| exact Hnone].
  apply Forall_forall. intros key Hkey.
  apply elem_of_constructorsNeedingArgs in Hkey as (p & Hp & Hr & <-).
  apply Hbefore; assumption.
Qed.

(** Some parent that requires arguments satisfies [missing]: there is a
    first one. *)
Lemma first_parent_without (missing : ContractDefinition -> bool) parents :
  (exists parent, parent ∈ parents
                  /\ requiresArguments parent = true
                  /\ missing parent = true) ->
  exists before parent after,
    parents = (before ++ parent :: after)%list
    /\ requiresArguments parent = true
    /\ missing parent = true
    /\ forall p, p ∈ before -> requiresArguments p = true ->
                 missing p = false.
Proof.
  induction parents as [| p parents IH]; intros (parent & Hin & Hreq & Hnone).
  - inversion Hin.
  - destruct (requiresArguments p && missing p) eqn:Hp.
    + apply andb_true_iff in Hp as [Hp Hm].
      exists [], p, parents. repeat split; try assumption.
      intros p' Hp'. inversion Hp'.
    + apply elem_of_cons in Hin as [-> | Hin];
        [rewrite Hreq, Hnone in Hp; discriminate |].
      destruct IH as (before & q & after & -> & Hq & Hqn & Hbefore);
        [eauto |].
      exists (p :: before), q, after. repeat split; try assumption.
      intros p' [-> | Hp']%elem_of_cons Hr; [| eauto].
      rewrite Hr in Hp. exact Hp.
Qed.

(** *** The failures of [mockContract] *)

(** The call on an entry that [sources] holds itself. *)
Lemma mockContract_entry sources path contractName options sourceInfo :
  sources !! path = Some sourceInfo ->
  mock sources path contractName options
  = if hasProperty (contracts sourceInfo) contractName
    then flattenedAndMocked sourceInfo path contractName options
           (getProperty (contracts sourceInfo) contractName)
    else silent (Throw (ContractNotFoundError contractName path)).
Proof.
  intros Hpath. unfold mockContract.
  rewrite (proj2 (getProperty_own _ _ _) Hpath). reflexivity.
Qed.

(** C10, as the code has it. When [sources] holds no entry for [path],
    [mockContract] returns no source unit and throws none of its three
    errors: it throws a [TypeError] before any check is made. When no
    object has a property named [path], [sources[path]] is [undefined] and
    reading its [contracts] throws; when [path] names a property that
    objects inherit, [sources[path]] is that property, its [contracts] is
    [undefined], and the [in] test on it throws. *)
Theorem mockContract_unknown_path sources path contractName options :
  sources !! path = None ->
  (inherited path = false ->
   mock sources path contractName options
   = silent (Throw UndefinedSourceInfo))
  /\ (inherited path = true ->
      mock sources path contractName options
      = silent (Throw (UndefinedContracts contractName)))
  /\ (exists cause,
        outcome (mock sources path contractName options)
        = Throw (TypeError cause))
  /\ (forall unit,
        outcome (mock sources path contractName options) <> Return unit)
  /\ (forall name' path',
        outcome (mock sources path contractName options)
        <> Throw (ContractNotFoundError name' path'))
  /\ (forall name' path',
        outcome (mock sources path contractName options)
        <> Throw (ScopeResolutionError name' path'))
  /\ (forall name' contractName',
        outcome (mock sources path contractName options)
        <> Throw (MissingConstructorArgsError name' contractName')).
Proof.
  intros Hpath. unfold mockContract, getProperty. rewrite Hpath.
  destruct (inherited path); simpl;
    (split; [intros; first [reflexivity | discriminate] |]);
    (split; [intros; first [reflexivity | discriminate] |]);
    (split; [eexists; reflexivity |]);
    repeat split; intros; discriminate.
Qed.

(** C3, as the code has it. When [sourceInfo.contracts] holds no entry for
    [contractName] and no object has a property of that name either,
    [mockContract] throws the error that names the contract and the path,
    and returns no source unit. When [contractName] names a property that
    objects inherit, the guard of line 32 passes: the inherited property is
    handed to [flattenContract] in place of a contract. *)
Theorem mockContract_contract_not_found
    sources path contractName options sourceInfo :
  sources !! path = Some sourceInfo ->
  contracts sourceInfo !! contractName = None ->
  (inherited contractName = false ->
   mock sources path contractName options
   = silent (Throw (ContractNotFoundError contractName path))
   /\ forall unit,
        outcome (mock sources path contractName options) <> Return unit)
  /\ (inherited contractName = true ->
      mock sources path contractName options
      = flattenedAndMocked sourceInfo path contractName options
          (Inherited contractName)).
Proof.
  intros Hpath Hname. rewrite (mockContract_entry _ _ _ _ _ Hpath). split.
  - intros Hin.
    rewrite (proj2 (hasProperty_false _ _) (conj Hname Hin)).
    split; [reflexivity | discriminate].
  - intros Hin.
    rewrite (proj2 (hasProperty_true _ _) (or_intror Hin)).
    rewrite (getProperty_inherited _ _ Hname Hin). reflexivity.
Qed.

(** C4, as the code has it. When the flattener asks the callback for a
    name that the scope of the file does not hold and that no object has as
    a property either, the callback prints the keys of the scope and
    [mockContract] throws the error that names the missing name and the
    path; it returns no source unit. When the name is one of a property
    that objects inherit, the callback throws nothing: it answers with the
    inherited property. *)
Theorem mockContract_not_in_scope
    sources path contractName options sourceInfo (missing : string) :
  sources !! path = Some sourceInfo ->
  hasProperty (contracts sourceInfo) contractName = true ->
  asksFor (resolveInScope sourceInfo path)
    (flattenContract (getProperty (contracts sourceInfo) contractName))
    missing ->
  scope sourceInfo !! missing = None ->
  (inherited missing = false ->
   mock sources path contractName options
   = {| console := [dom (scope sourceInfo)];
        outcome := Throw (ScopeResolutionError missing path) |}
   /\ forall unit,
        outcome (mock sources path contractName options) <> Return unit)
  /\ (inherited missing = true ->
      resolveInScope sourceInfo path missing
      = silent (Return (Inherited missing))).
Proof.
  intros Hpath Hname Hask Hscope. split.
  - intros Hin.
    assert (mock sources path contractName options
            = {| console := [dom (scope sourceInfo)];
                 outcome := Throw (ScopeResolutionError missing path) |})
      as Hthrow.
    { rewrite (mockContract_entry _ _ _ _ _ Hpath), Hname.
      unfold flattenAndMock.
      rewrite (runFlattening_not_in_scope _ _ _ missing Hask)
        by (apply hasProperty_false; auto).
      reflexivity. }
    rewrite Hthrow. split; [reflexivity | discriminate].
  - intros Hin.
    rewrite resolveInScope_returns
      by (apply hasProperty_true; right; exact Hin).
    rewrite (getProperty_inherited _ _ Hscope Hin). reflexivity.
Qed.

(** C2, as the code has it. No parent that declares a constructor with
    parameters is named like a property that objects inherit. Then, when
    some such parent has no entry of its name in [options.constructors],
    [mockContract] throws the error that names the first such parent in
    the order of [parents], whatever the synthesis functions would do, and
    returns no source unit. When every such parent has an entry, the check
    throws nothing and the call goes on with the synthesis: parents without
    a constructor with parameters need no entry. *)
Theorem mockContract_missing_constructor_args
    sources path contractName options sourceInfo flat parents :
  sources !! path = Some sourceInfo ->
  hasProperty (contracts sourceInfo) contractName = true ->
  outcome (flattening sourceInfo path
             (getProperty (contracts sourceInfo) contractName))
  = Return (flat, parents) ->
  (forall parent, parent ∈ parents -> requiresArguments parent = true ->
                  inherited (name parent) = false) ->
  ((exists parent, parent ∈ parents
                   /\ requiresArguments parent = true
                   /\ constructors options !! name parent = None) ->
   exists before parent after,
     parents = (before ++ parent :: after)%list
     /\ requiresArguments parent = true
     /\ constructors options !! name parent = None
     /\ (forall p, p ∈ before -> requiresArguments p = true ->
                   is_Some (constructors options !! name p))
     /\ outcome (mock sources path contractName options)
        = Throw (MissingConstructorArgsError (name parent) contractName)
     /\ forall unit,
          outcome (mock sources path contractName options) <> Return unit)
  /\ ((forall parent, parent ∈ parents ->
                      requiresArguments parent = true ->
                      is_Some (constructors options !! name parent)) ->
      outcome (mock sources path contractName options)
      = assembled sourceInfo path contractName options flat
          (constructorsNeedingArgs parents)).
Proof.
  intros Hpath Hname Hflat Hnames.
  rewrite (mockContract_entry _ _ _ _ _ Hpath), Hname.
  unfold flattenAndMock. simpl. rewrite Hflat. simpl. split.
  - intros (offender & Hin & Hreq & Hnone).
    destruct (first_parent_without
                (fun p => negb (hasProperty (constructors options) (name p)))
                parents)
      as (before & parent & after & -> & Hr & Hmissing & Hbefore).
    { exists offender. repeat split; try assumption.
      apply negb_true_iff, hasProperty_false. auto. }
    apply negb_true_iff in Hmissing.
    assert (forall p, p ∈ before -> requiresArguments p = true ->
                      hasProperty (constructors options) (name p) = true)
      as Hhave.
    { intros p Hp Hrp. apply negb_false_iff, Hbefore; assumption. }
    exists before, parent, after.
    rewrite (checkConstructors_parents _ _ _ _ _ Hr Hmissing Hhave). simpl.
    split; [reflexivity |]. split; [exact Hr |].
    split; [apply hasProperty_false in Hmissing as [? _]; assumption |].
    split; [| split; [reflexivity | discriminate]].
    intros p Hp Hrp.
    destruct (proj1 (hasProperty_true _ _) (Hhave p Hp Hrp)) as [? | Hinh];
      [assumption |].
    rewrite Hnames in Hinh; [discriminate | | exact Hrp].
    apply elem_of_app. left. exact Hp.
  - intros Hall.
    assert (checkConstructors options contractName
              (constructorsNeedingArgs parents) = Return tt) as ->.
    { apply checkConstructors_Return, Forall_forall. intros key Hkey.
      apply elem_of_constructorsNeedingArgs in Hkey as (p & Hp & Hr & <-).
      apply hasProperty_true. left. apply Hall; assumption. }
    reflexivity.
Qed.

(** *** The classification of the abstract functions *)

(** The abstract functions are the functions of [flat.subNodes] without
    body. *)
Lemma elem_of_abstractsOf flat (func : FunctionDefinition) :
  func ∈ abstractsOf flat
  <-> FunctionDefinitionNode func ∈ subNodes flat /\ func_body func = None.
Proof.
  unfold abstractsOf. rewrite list_elem_of_omap. split.
  - intros (node & Hin & Hnode).
    destruct node as [f | | | | | |]; simpl in Hnode; try discriminate.
    destruct (func_body f) eqn:Hbody; [discriminate |].
    injection Hnode as <-. auto.
  - intros [Hin Hbody]. exists (FunctionDefinitionNode func).
    split; [exact Hin |]. simpl. rewrite Hbody. reflexivity.
Qed.

Lemma truthy_true (name : option string) :
  truthy name = true
  <-> exists key, name = Some key /\ key <> EmptyString.
Proof.
  destruct name as [[| c key] |]; simpl; split;
    try discriminate; try (intros (k & [= <-] & Hk); congruence);
    try (intros (k & [=] & _)).
  intros _. eexists. split; [reflexivity | discriminate].
Qed.

Lemma elem_of_scriptedFunctions options
    (abstracts : list FunctionDefinition) (func : FunctionDefinition) :
  func ∈ scriptedFunctions options abstracts
  <-> func ∈ abstracts
      /\ exists key, func_name func = Some key /\ key <> EmptyString
                      /\ hasProperty (scripted options) key = true.
Proof.
  unfold scriptedFunctions. rewrite elem_of_List_filter, andb_true_iff.
  rewrite truthy_true. split.
  - intros (Hin & (key & Hname & Hkey) & Hhas). split; [exact Hin |].
    exists key. rewrite Hname in Hhas. auto.
  - intros (Hin & key & Hname & Hkey & Hhas). split; [exact Hin |].
    split; [eauto |]. rewrite Hname. exact Hhas.
Qed.

Lemma elem_of_mockedFunctions options
    (abstracts : list FunctionDefinition) (func : FunctionDefinition) :
  func ∈ mockedFunctions options abstracts
  <-> func ∈ abstracts
      /\ exists key, func_name func = Some key /\ key <> EmptyString
                      /\ hasProperty (scripted options) key = false.
Proof.
  unfold mockedFunctions.
  rewrite elem_of_List_filter, andb_true_iff, negb_true_iff.
  rewrite truthy_true. split.
  - intros (Hin & (key & Hname & Hkey) & Hhas). split; [exact Hin |].
    exists key. rewrite Hname in Hhas. auto.
  - intros (Hin & key & Hname & Hkey & Hhas). split; [exact Hin |].
    split; [eauto |]. rewrite Hname. exact Hhas.
Qed.

(** What the classifier does with an abstract function of
    [flat.subNodes]. With a name that is not empty it is in exactly one
    partition: [scripted] when [name in options.scripted] holds, be it for
    an entry or for an inherited property, [mocked] otherwise. Without name
    ([null] or the empty string of the fallback function) it is in
    neither. *)
Lemma classification_of_abstracts options flat (func : FunctionDefinition) :
  FunctionDefinitionNode func ∈ subNodes flat ->
  func_body func = None ->
  let abstracts := abstractsOf flat in
  (forall key, func_name func = Some key -> key <> EmptyString ->
     is_Some (scripted options !! key) \/ inherited key = true ->
     (func ∈ scriptedFunctions options abstracts)
     /\ (func ∉ mockedFunctions options abstracts))
  /\ (forall key, func_name func = Some key -> key <> EmptyString ->
        scripted options !! key = None -> inherited key = false ->
        (func ∈ mockedFunctions options abstracts)
        /\ (func ∉ scriptedFunctions options abstracts))
  /\ (func_name func = None \/ func_name func = Some EmptyString ->
        (func ∉ scriptedFunctions options abstracts)
        /\ (func ∉ mockedFunctions options abstracts)).
Proof.
  intros Hin Hbody abstracts.
  assert (func ∈ abstracts) as Habs by (apply elem_of_abstractsOf; auto).
  split; [| split].
  - intros key Hname Hkey Hsome. apply hasProperty_true in Hsome.
    rewrite elem_of_scriptedFunctions, elem_of_mockedFunctions.
    split; [split; [exact Habs | exists key; auto] |].
    intros (_ & key' & Hname' & _ & Hnone). congruence.
  - intros key Hname Hkey Hnone Hinh.
    assert (hasProperty (scripted options) key = false) as Hout
      by (apply hasProperty_false; auto).
    rewrite elem_of_scriptedFunctions, elem_of_mockedFunctions.
    split; [split; [exact Habs | exists key; auto] |].
    intros (_ & key' & Hname' & _ & Hhas). congruence.
  - intros Hunnamed.
    rewrite elem_of_scriptedFunctions, elem_of_mockedFunctions.
    split; intros (_ & key & Hname & Hkey & _);
      destruct Hunnamed; congruence.
Qed.

(** *** The calls that succeed *)

(** A successful call, taken apart: every step returned, and the source
    unit is built from what the steps returned. *)
Lemma mockContract_Return sources path contractName options
    (unit : SourceUnit) :
  outcome (mock sources path contractName options) = Return unit ->
  exists sourceInfo contract flat parents forwarder exposed scripts stubs
         forcer,
    sources !! path = Some sourceInfo
    /\ hasProperty (contracts sourceInfo) contractName = true
    /\ getProperty (contracts sourceInfo) contractName = contract
    /\ outcome (flattening sourceInfo path contract) = Return (flat, parents)
    /\ checkConstructors options contractName
         (constructorsNeedingArgs parents) = Return tt
    /\ makeConstructor
         (forwardedArguments options (constructorsNeedingArgs parents))
       = Return forwarder
    /\ flatMap (subNodes flat) exposeNode = Return exposed
    /\ mapExc (scriptOne scriptFunction options)
         (scriptedFunctions options (abstractsOf flat))
       = Return scripts
    /\ flatMap (mockedFunctions options (abstractsOf flat)) stubFunction
       = Return stubs
    /\ nonAbstractForcer (mockContractName contractName) = Return forcer
    /\ children unit
       = (pragmasOf (parsed sourceInfo)
          ++ [ ImportDirective path None;
               ContractDefinitionNode
                 {| kind := Contract;
                    name := mockContractName contractName;
                    baseContracts :=
                      [ {| baseName := userType contractName |} ];
                    subNodes :=
                      forwarder :: exposed ++ scripts ++ stubs |};
               ContractDefinitionNode forcer ])%list.
Proof.
  unfold mockContract, getProperty at 1. intros Hcall.
  destruct (sources !! path) as [sourceInfo |];
    [| destruct (inherited path); discriminate].
  destruct (hasProperty (contracts sourceInfo) contractName) eqn:Hname;
    [| discriminate].
  unfold flattenAndMock in Hcall. simpl in Hcall.
  apply bind_Return in Hcall as ([flat parents] & Hflat & Hcall).
  simpl in Hcall.
  apply bind_Return in Hcall as ([] & Hcheck & Hcall).
  unfold assemble, buildMock in Hcall.
  apply bind_Return in Hcall as (mockDef & Hmock & Hcall).
  apply bind_Return in Hmock as (members & Hmembers & [= <-]).
  apply bind_Return in Hcall as (forcer & Hforcer & [= <-]).
  unfold mockSubNodes in Hmembers.
  apply bind_Return in Hmembers as (forwarder & Hforwarder & Hmembers).
  apply bind_Return in Hmembers as (exposed & Hexposed & Hmembers).
  apply bind_Return in Hmembers as (scripts & Hscripts & Hmembers).
  apply bind_Return in Hmembers as (stubs & Hstubs & [= <-]).
  exists sourceInfo, (getProperty (contracts sourceInfo) contractName),
    flat, parents, forwarder, exposed, scripts, stubs, forcer.
  simpl. repeat split; assumption.
Qed.

(** Nothing is written to the console by a call that succeeds. *)
Lemma mockContract_Return_silent sources path contractName options
    (unit : SourceUnit) :
  outcome (mock sources path contractName options) = Return unit ->
  console (mock sources path contractName options) = [].
Proof.
  intros Hcall. destruct (sources !! path) as [sourceInfo |] eqn:Hpath.
  - rewrite (mockContract_entry _ _ _ _ _ Hpath) in *.
    destruct (hasProperty (contracts sourceInfo) contractName);
      [| discriminate].
    unfold flattenAndMock in *. simpl in *.
    apply bind_Return in Hcall as (result & Hflat & _).
    exact (runFlattening_Return_silent _ _ _ _ Hflat).
  - unfold mockContract, getProperty in Hcall. rewrite Hpath in Hcall.
    destruct (inherited path); discriminate.
Qed.

(** C5. In a successful call the [subNodes] of the mock are: the one
    forwarding constructor, then what [exposeNode] returns for each member
    of the flattened contract, in the order of its members, then what
    [scriptFunction] returns for each scripted function, in the order of
    [scripted], then what [stubFunction] returns for each mocked function,
    in the order of [mocked]. *)
Theorem mockContract_subNodes_order sources path contractName options
    (unit : SourceUnit) :
  outcome (mock sources path contractName options) = Return unit ->
  exists sourceInfo contract flat parents directives mockDef forcer
         forwarder exposed scripts stubs,
    sources !! path = Some sourceInfo
    /\ getProperty (contracts sourceInfo) contractName = contract
    /\ outcome (flattening sourceInfo path contract) = Return (flat, parents)
    /\ children unit
       = (directives ++ [ ContractDefinitionNode mockDef;
                          ContractDefinitionNode forcer ])%list
    /\ makeConstructor
         (forwardedArguments options (constructorsNeedingArgs parents))
       = Return forwarder
    /\ Forall2 (fun node out => exposeNode node = Return out)
         (subNodes flat) exposed
    /\ Forall2
         (fun func out =>
            scriptFunction func
              (getProperty (scripted options)
                 (default EmptyString (func_name func)))
            = Return out)
         (scriptedFunctions options (abstractsOf flat)) scripts
    /\ Forall2 (fun func out => stubFunction func = Return out)
         (mockedFunctions options (abstractsOf flat)) stubs
    /\ subNodes mockDef
       = (forwarder :: concat exposed ++ scripts ++ concat stubs)%list.
Proof.
  intros Hcall.
  destruct (mockContract_Return _ _ _ _ _ Hcall)
    as (sourceInfo & contract & flat & parents & forwarder & exposed
        & scripts & stubs & forcer & Hpath & _ & Hname & Hflat & _
        & Hforwarder & Hexposed & Hscripts & Hstubs & Hforcer & Hchildren).
  apply flatMap_Return in Hexposed as (exposedEach & Hexposed & ->).
  apply flatMap_Return in Hstubs as (stubsEach & Hstubs & ->).
  apply mapExc_Return in Hscripts.
  exists sourceInfo, contract, flat, parents.
  exists (pragmasOf (parsed sourceInfo) ++ [ImportDirective path None])%list.
  eexists _, forcer, forwarder, exposedEach, scripts, stubsEach.
  repeat split; try eassumption.
  - rewrite Hchildren, <- app_assoc. reflexivity.
  - reflexivity.
Qed.

(** C6. In a successful call the mock is named after the contract, with
    the suffix [Mock], and its [baseContracts] hold one entry: the type of
    the contract itself. *)
Theorem mockContract_name_and_base sources path contractName options
    (unit : SourceUnit) :
  outcome (mock sources path contractName options) = Return unit ->
  exists directives mockDef forcer,
    children unit
    = (directives ++ [ ContractDefinitionNode mockDef;
                       ContractDefinitionNode forcer ])%list
    /\ name mockDef = contractName +:+ "Mock"
    /\ baseContracts mockDef = [ {| baseName := userType contractName |} ]
    /\ length (baseContracts mockDef) = 1.
Proof.
  intros Hcall.
  destruct (mockContract_Return _ _ _ _ _ Hcall)
    as (sourceInfo & contract & flat & parents & forwarder & exposed
        & scripts & stubs & forcer & _ & _ & _ & _ & _ & _ & _ & _ & _ & _
        & Hchildren).
  exists (pragmasOf (parsed sourceInfo) ++ [ImportDirective path None])%list.
  eexists _, forcer. split.
  - rewrite Hchildren, <- app_assoc. reflexivity.
  - repeat split.
Qed.

(** C7. In a successful call the children of the source unit are: the
    pragma directives of the parsed file, each of them and nothing else,
    in the order of the file; one import of [path]; the mock; the
    contract that [nonAbstractForcer] returns for the name of the mock.
    There is no other child. *)
Theorem mockContract_children sources path contractName options
    (unit : SourceUnit) :
  outcome (mock sources path contractName options) = Return unit ->
  exists sourceInfo pragmas mockDef forcer,
    sources !! path = Some sourceInfo
    /\ children unit
       = (pragmas ++ [ ImportDirective path None;
                       ContractDefinitionNode mockDef;
                       ContractDefinitionNode forcer ])%list
    /\ pragmas
       = List.filter
           (fun child => bool_decide (childType child = PragmaDirectiveT))
           (children (parsed sourceInfo))
    /\ pragmas `sublist_of` children (parsed sourceInfo)
    /\ (forall child,
          child ∈ pragmas
          <-> child ∈ children (parsed sourceInfo)
              /\ childType child = PragmaDirectiveT)
    /\ name mockDef = mockContractName contractName
    /\ nonAbstractForcer (mockContractName contractName) = Return forcer.
Proof.
  intros Hcall.
  destruct (mockContract_Return _ _ _ _ _ Hcall)
    as (sourceInfo & contract & flat & parents & forwarder & exposed
        & scripts & stubs & forcer & Hpath & _ & _ & _ & _ & _ & _ & _ & _
        & Hforcer & Hchildren).
  exists sourceInfo, (pragmasOf (parsed sourceInfo)).
  eexists _, forcer. split; [exact Hpath |]. split; [exact Hchildren |].
  split; [reflexivity |]. split; [apply List_filter_sublist |].
  split; [| split; [reflexivity | exact Hforcer]].
  intros child. unfold pragmasOf.
  rewrite elem_of_List_filter, bool_decide_eq_true. reflexivity.
Qed.

(** The entries handed to [makeConstructor]. *)
Lemma lookup_forwardedArguments options parents key (values : list Litteral) :
  forwardedArguments options (constructorsNeedingArgs parents) !! key
  = Some values
  <-> constructors options !! key = Some values
      /\ exists parent, parent ∈ parents
                         /\ requiresArguments parent = true
                         /\ name parent = key.
Proof.
  unfold forwardedArguments.
  rewrite lookup_objectFilter, bool_decide_eq_true.
  rewrite elem_of_constructorsNeedingArgs. reflexivity.
Qed.

(** C8. In a successful call the forwarding constructor is what
    [makeConstructor] returns for the entries of [options.constructors]
    whose key is the name of a parent that declares a constructor with
    parameters, and for no other entry. *)
Theorem mockContract_forwarded_arguments sources path contractName options
    (unit : SourceUnit) :
  outcome (mock sources path contractName options) = Return unit ->
  exists sourceInfo contract flat parents directives mockDef forcer
         args forwarder others,
    sources !! path = Some sourceInfo
    /\ getProperty (contracts sourceInfo) contractName = contract
    /\ outcome (flattening sourceInfo path contract) = Return (flat, parents)
    /\ children unit
       = (directives ++ [ ContractDefinitionNode mockDef;
                          ContractDefinitionNode forcer ])%list
    /\ subNodes mockDef = forwarder :: others
    /\ args = forwardedArguments options (constructorsNeedingArgs parents)
    /\ makeConstructor args = Return forwarder
    /\ forall key (values : list Litteral),
         args !! key = Some values
         <-> constructors options !! key = Some values
             /\ exists parent, parent ∈ parents
                                /\ requiresArguments parent = true
                                /\ name parent = key.
Proof.
  intros Hcall.
  destruct (mockContract_Return _ _ _ _ _ Hcall)
    as (sourceInfo & contract & flat & parents & forwarder & exposed
        & scripts & stubs & forcer & Hpath & _ & Hname & Hflat & _
        & Hforwarder & _ & _ & _ & _ & Hchildren).
  exists sourceInfo, contract, flat, parents.
  exists (pragmasOf (parsed sourceInfo) ++ [ImportDirective path None])%list.
  eexists _, forcer, _, forwarder, _.
  split; [exact Hpath |]. split; [exact Hname |]. split; [exact Hflat |].
  split; [rewrite Hchildren, <- app_assoc; reflexivity |].
  split; [reflexivity |]. split; [reflexivity |].
  split; [exact Hforwarder |].
  intros key values. apply lookup_forwardedArguments.
Qed.

End MockContract.

(** ** The properties on the [Token] scenario *)

Section OnScenario.

Import Scenario.

(** A statement about [mockContract], taken at the stand-ins of the
    scenario. *)
Local Abbreviation at_scenario statement :=
  (statement flattenContract makeConstructor exposeNode scriptFunction
     stubFunction nonAbstractForcer userType).

(** C1 on [Wallet], where the code misses what the claim says: the
    fallback function is an abstract function of the flattened contract
    and has no name, and the classifier places it neither in [mocked] nor
    in [scripted]; the mock that comes out holds no stub for it. *)
Lemma unnamed_abstract_is_not_mocked :
  (FunctionDefinitionNode fallback ∈ subNodes (merge Wallet []))
  /\ func_body fallback = None
  /\ func_name fallback = Some EmptyString
  /\ (fallback ∉ mockedFunctions noOptions (abstractsOf (merge Wallet [])))
  /\ (fallback ∉ scriptedFunctions noOptions (abstractsOf (merge Wallet [])))
  /\ flattenContract (Own Wallet) = Flattened (merge Wallet []) []
  /\ mock sources "Token.sol" "Wallet" noOptions = silent (Return walletMock).
Proof.
  split; [apply list_elem_of_here |].
  split; [reflexivity |]. split; [reflexivity |].
  split; [vm_compute; apply not_elem_of_nil |].
  split; [vm_compute; apply not_elem_of_nil |].
  split; [reflexivity | vm_compute; reflexivity].
Qed.

(** The classifier on [Describable]: its abstract function is named
    [toString], a name that [options.scripted] has no entry for but every
    object has a property of. The classifier places it in [scripted], not
    in [mocked], and the script it reads for it is the inherited
    property. *)
Lemma inherited_name_is_scripted :
  (FunctionDefinitionNode describe ∈ subNodes (merge Describable []))
  /\ func_body describe = None
  /\ func_name describe = Some "toString"
  /\ scripted noOptions !! "toString" = None
  /\ (describe
      ∈ scriptedFunctions noOptions (abstractsOf (merge Describable [])))
  /\ (describe
      ∉ mockedFunctions noOptions (abstractsOf (merge Describable [])))
  /\ getProperty (scripted noOptions) "toString" = Inherited "toString".
Proof.
  split; [apply list_elem_of_here |].
  split; [reflexivity |]. split; [reflexivity |].
  split; [vm_compute; reflexivity |].
  split; [vm_compute; apply list_elem_of_here |].
  split; [vm_compute; apply not_elem_of_nil |].
  vm_compute. reflexivity.
Qed.

(** C2, as the specification states it, fails on [Vault]: [Pausable] is a
    parent with a constructor that takes a parameter and has no entry in
    the options, and the error names [Ownable], the parent before it. *)
Lemma error_names_the_first_parent :
  outcome (runFlattening (resolveInScope tokenSol "Token.sol")
             (flattenContract (Own Vault)))
  = Return (merge Vault [Ownable; Pausable], [Ownable; Pausable])
  /\ requiresArguments Pausable = true
  /\ constructors noOptions !! name Pausable = None
  /\ outcome (mock sources "Token.sol" "Vault" noOptions)
     = Throw (MissingConstructorArgsError "Ownable" "Vault")
  /\ MissingConstructorArgsError "Ownable" "Vault"
     <> MissingConstructorArgsError (name Pausable) "Vault".
Proof.
  split; [vm_compute; reflexivity |]. split; [reflexivity |].
  split; [vm_compute; reflexivity |]. split; [vm_compute; reflexivity |].
  discriminate.
Qed.

(** The check of the constructor arguments on [Priced]: its parent
    [valueOf] has a constructor that takes a parameter and no entry in the
    options, and the call returns a mock all the same, since every object
    has a property named [valueOf]. *)
Lemma inherited_parent_passes_the_check :
  outcome (runFlattening (resolveInScope tokenSol "Token.sol")
             (flattenContract (Own Priced)))
  = Return (merge Priced [ValueOf], [ValueOf])
  /\ requiresArguments ValueOf = true
  /\ constructors noOptions !! name ValueOf = None
  /\ mock sources "Token.sol" "Priced" noOptions = silent (Return pricedMock).
Proof.
  split; [vm_compute; reflexivity |]. split; [reflexivity |].
  split; vm_compute; reflexivity.
Qed.

(** C10, as the specification states it, fails on the path [toString]:
    [sources] has no entry for it, but [sources[path]] is not [undefined],
    and the [TypeError] comes from the [in] test of line 32, not from
    reading [contracts]. *)
Lemma inherited_path_is_not_undefined :
  sources !! "toString" = None
  /\ getProperty sources "toString" = Inherited "toString"
  /\ mock sources "toString" "Token" options
     = silent (Throw (TypeError (InOperatorOnUndefined "Token")))
  /\ TypeError (InOperatorOnUndefined "Token") <> UndefinedSourceInfo.
Proof.
  split; [vm_compute; reflexivity |]. split; [vm_compute; reflexivity |].
  split; [vm_compute; reflexivity | discriminate].
Qed.

Lemma mockContract_unknown_path_witness :
  sources !! "Nope.sol" = None
  /\ inherited "Nope.sol" = false
  /\ mock sources "Nope.sol" "Token" options
     = silent (Throw UndefinedSourceInfo).
Proof.
  assert (sources !! "Nope.sol" = None) as Hpath by (vm_compute; reflexivity).
  split; [exact Hpath |]. split; [reflexivity |].
  exact (proj1 (at_scenario mockContract_unknown_path
                  sources "Nope.sol" "Token" options Hpath) eq_refl).
Defined.

(** C3 on the contract name [toString]: the file declares no such
    contract, and [mockContract] does not throw the error of line 33: it
    flattens the inherited property. *)
Lemma mockContract_contract_not_found_witness :
  sources !! "Token.sol" = Some tokenSol
  /\ contracts tokenSol !! "toString" = None
  /\ inherited "toString" = true
  /\ mock sources "Token.sol" "toString" options
     = flattenAndMock flattenContract makeConstructor exposeNode
         scriptFunction stubFunction nonAbstractForcer userType
         tokenSol "Token.sol" "toString" options (Inherited "toString")
  /\ outcome (mock sources "Token.sol" "toString" options)
     = Throw NotAContract.
Proof.
  assert (sources !! "Token.sol" = Some tokenSol) as Hpath
    by (vm_compute; reflexivity).
  assert (contracts tokenSol !! "toString" = None) as Hname
    by (vm_compute; reflexivity).
  split; [exact Hpath |]. split; [exact Hname |]. split; [reflexivity |].
  split; [| vm_compute; reflexivity].
  exact (proj2 (at_scenario mockContract_contract_not_found
                  sources "Token.sol" "toString" options tokenSol
                  Hpath Hname) eq_refl).
Defined.

(** C4 on [Printer], which inherits from [toString]: the scope holds no
    such contract, and the callback does not throw the error of line 38:
    it answers with the inherited property. *)
Lemma mockContract_not_in_scope_witness :
  sources !! "Token.sol" = Some tokenSol
  /\ asksFor (resolveInScope tokenSol "Token.sol")
       (flattenContract (getProperty (contracts tokenSol) "Printer"))
       "toString"
  /\ scope tokenSol !! "toString" = None
  /\ inherited "toString" = true
  /\ resolveInScope tokenSol "Token.sol" "toString"
     = silent (Return (Inherited "toString"))
  /\ outcome (mock sources "Token.sol" "Printer" options)
     = Throw NotAContract.
Proof.
  assert (sources !! "Token.sol" = Some tokenSol) as Hpath
    by (vm_compute; reflexivity).
  assert (hasProperty (contracts tokenSol) "Printer" = true) as Hname
    by (vm_compute; reflexivity).
  assert (asksFor (resolveInScope tokenSol "Token.sol")
            (flattenContract (getProperty (contracts tokenSol) "Printer"))
            "toString") as Hask
    by apply asks_now.
  assert (scope tokenSol !! "toString" = None) as Hscope
    by (vm_compute; reflexivity).
  split; [exact Hpath |]. split; [exact Hask |]. split; [exact Hscope |].
  split; [reflexivity |]. split; [| vm_compute; reflexivity].
  exact (proj2 (at_scenario mockContract_not_in_scope
                  sources "Token.sol" "Printer" options tokenSol
                  "toString" Hpath Hname Hask Hscope) eq_refl).
Defined.

Lemma mockContract_missing_constructor_args_witness :
  sources !! "Token.sol" = Some tokenSol
  /\ outcome (runFlattening (resolveInScope tokenSol "Token.sol")
                (flattenContract (getProperty (contracts tokenSol) "Vault")))
     = Return (merge Vault [Ownable; Pausable], [Ownable; Pausable])
  /\ inherited (name Ownable) = false
  /\ inherited (name Pausable) = false
  /\ exists before after,
       [Ownable; Pausable] = (before ++ Ownable :: after)%list
       /\ outcome (mock sources "Token.sol" "Vault" noOptions)
          = Throw (MissingConstructorArgsError (name Ownable) "Vault").
Proof.
  assert (sources !! "Token.sol" = Some tokenSol) as Hpath
    by (vm_compute; reflexivity).
  assert (hasProperty (contracts tokenSol) "Vault" = true) as Hname
    by (vm_compute; reflexivity).
  assert (outcome (runFlattening (resolveInScope tokenSol "Token.sol")
                     (flattenContract
                        (getProperty (contracts tokenSol) "Vault")))
          = Return (merge Vault [Ownable; Pausable], [Ownable; Pausable]))
    as Hflat by (vm_compute; reflexivity).
  assert (forall parent, parent ∈ [Ownable; Pausable] ->
                         requiresArguments parent = true ->
                         inherited (name parent) = false) as Hnames.
  { intros parent Hin _.
    apply elem_of_cons in Hin as [-> | Hin]; [reflexivity |].
    apply list_elem_of_singleton in Hin as ->. reflexivity. }
  split; [exact Hpath |]. split; [exact Hflat |].
  split; [reflexivity |]. split; [reflexivity |].
  destruct (proj1 (at_scenario mockContract_missing_constructor_args
                     sources "Token.sol" "Vault" noOptions tokenSol
                     _ _ Hpath Hname Hflat Hnames))
    as (before & parent & after & Hparents & Hreq & Hnone & Hbefore
        & Hthrow & _).
  - exists Pausable. split; [repeat constructor |].
    split; vm_compute; reflexivity.
  - destruct before as [| first before].
    + injection Hparents as <- <-. exists [], [Pausable].
      split; [reflexivity | exact Hthrow].
    + injection Hparents as <- Hrest.
      destruct (Hbefore Ownable) as [values Hvalues];
        [apply list_elem_of_here | reflexivity |].
      vm_compute in Hvalues. discriminate Hvalues.
Defined.

Lemma mockContract_subNodes_order_witness :
  outcome (mock sources "Token.sol" "Token" options) = Return tokenMock
  /\ exists directives mockDef forcer forwarder exposed scripts stubs,
       children tokenMock
       = (directives ++ [ ContractDefinitionNode mockDef;
                          ContractDefinitionNode forcer ])%list
       /\ subNodes mockDef
          = (forwarder :: concat exposed ++ scripts ++ concat stubs)%list.
Proof.
  assert (outcome (mock sources "Token.sol" "Token" options)
          = Return tokenMock)
    as Hcall by (vm_compute; reflexivity).
  split; [exact Hcall |].
  destruct (at_scenario mockContract_subNodes_order
              sources "Token.sol" "Token" options tokenMock Hcall)
    as (_ & _ & _ & _ & directives & mockDef & forcer & forwarder & exposed
        & scripts & stubs & _ & _ & _ & Hchildren & _ & _ & _ & _ & Hsub).
  exists directives, mockDef, forcer, forwarder, exposed, scripts, stubs.
  split; assumption.
Defined.

Lemma mockContract_name_and_base_witness :
  outcome (mock sources "Token.sol" "Token" options) = Return tokenMock
  /\ exists directives mockDef forcer,
       children tokenMock
       = (directives ++ [ ContractDefinitionNode mockDef;
                          ContractDefinitionNode forcer ])%list
       /\ name mockDef = "TokenMock"
       /\ baseContracts mockDef = [ inherits "Token" ]
       /\ length (baseContracts mockDef) = 1.
Proof.
  assert (outcome (mock sources "Token.sol" "Token" options)
          = Return tokenMock)
    as Hcall by (vm_compute; reflexivity).
  split; [exact Hcall |].
  exact (at_scenario mockContract_name_and_base
           sources "Token.sol" "Token" options tokenMock Hcall).
Defined.

Lemma mockContract_children_witness :
  outcome (mock sources "Token.sol" "Token" options) = Return tokenMock
  /\ exists mockDef forcer,
       children tokenMock
       = (pragmas ++ [ ImportDirective "Token.sol" None;
                       ContractDefinitionNode mockDef;
                       ContractDefinitionNode forcer ])%list
       /\ name mockDef = "TokenMock"
       /\ nonAbstractForcer "TokenMock" = Return forcer.
Proof.
  assert (outcome (mock sources "Token.sol" "Token" options)
          = Return tokenMock)
    as Hcall by (vm_compute; reflexivity).
  split; [exact Hcall |].
  destruct (at_scenario mockContract_children
              sources "Token.sol" "Token" options tokenMock Hcall)
    as (sourceInfo & found & mockDef & forcer & Hpath & Hchildren & Hfound
        & _ & _ & Hname & Hforcer).
  assert (sourceInfo = tokenSol) as ->
    by (apply (inj Some); rewrite <- Hpath; vm_compute; reflexivity).
  assert (found = pragmas) as -> by (rewrite Hfound; reflexivity).
  exists mockDef, forcer. repeat split; assumption.
Defined.

Lemma mockContract_forwarded_arguments_witness :
  outcome (mock sources "Token.sol" "Token" options) = Return tokenMock
  /\ exists args forwarder,
       makeConstructor args = Return forwarder
       /\ args !! "Ownable" = Some ["0x01"]
       /\ args !! "Plain" = None
       /\ args !! "Other" = None.
Proof.
  assert (outcome (mock sources "Token.sol" "Token" options)
          = Return tokenMock)
    as Hcall by (vm_compute; reflexivity).
  split; [exact Hcall |].
  destruct (at_scenario mockContract_forwarded_arguments
              sources "Token.sol" "Token" options tokenMock Hcall)
    as (sourceInfo & contract & flat & parents & _ & _ & _ & args & forwarder
        & _ & Hpath & Hname & Hflat & _ & _ & Hargs & Hforwarder & _).
  assert (sourceInfo = tokenSol) as ->
    by (apply (inj Some); rewrite <- Hpath; vm_compute; reflexivity).
  assert (contract = Own Token) as ->
    by (rewrite <- Hname; vm_compute; reflexivity).
  assert (Return (flat, parents)
          = Return (merge Token [Ownable; Plain], [Ownable; Plain]))
    as [= -> ->] by (rewrite <- Hflat; vm_compute; reflexivity).
  exists args, forwarder. split; [exact Hforwarder |].
  rewrite Hargs. repeat split; vm_compute; reflexivity.
Defined.

End OnScenario.

(** * Further properties of the mocker *)

(** ** The name of the mock *)

Lemma length_append (s1 s2 : string) :
  String.length (s1 +:+ s2) = String.length s1 + String.length s2.
Proof.
  induction s1 as [| c s1 IH]; simpl; [reflexivity |]. rewrite IH. reflexivity.
Qed.

(** Appending the same suffix to two strings gives the same result only
    when the strings are the same. *)
Lemma append_inj_l (suffix s1 s2 : string) :
  s1 +:+ suffix = s2 +:+ suffix -> s1 = s2.
Proof.
  revert s2. induction s1 as [| c s1 IH]; intros [| d s2] Heq; simpl in Heq.
  - reflexivity.
  - apply (f_equal String.length) in Heq.
    rewrite !length_append in Heq. simpl in Heq. lia.
  - apply (f_equal String.length) in Heq.
    rewrite !length_append in Heq. simpl in Heq. lia.
  - injection Heq as -> Heq. f_equal. apply IH, Heq.
Qed.

(** X1. Two contracts with different names get mocks with different names:
    [mockContractName] is injective. *)
Theorem mockContractName_inj (contractName1 contractName2 : string) :
  mockContractName contractName1 = mockContractName contractName2 ->
  contractName1 = contractName2.
Proof. unfold mockContractName. apply append_inj_l. Qed.

(** X2. The name of the mock starts with the name of the contract, is four
    characters longer, and so is never the name of the contract itself: the
    mock does not shadow the contract it inherits from. *)
Theorem mockContractName_extends (contractName : string) :
  String.prefix contractName (mockContractName contractName) = true
  /\ String.length (mockContractName contractName)
     = String.length contractName + 4
  /\ mockContractName contractName <> contractName.
Proof.
  unfold mockContractName. split; [| split].
  - induction contractName as [| c rest IH]; simpl; [reflexivity |].
    rewrite IH. destruct (ascii_dec c c); [reflexivity | contradiction].
  - rewrite length_append. reflexivity.
  - intros Heq. apply (f_equal String.length) in Heq.
    rewrite length_append in Heq. simpl in Heq. lia.
Qed.

(** ** The error messages *)

(** X3. Whatever names and paths they carry, the three errors of [mockContract]
    differ from each other and from the [TypeError] of an unknown path: a
    caller can tell from the message which check failed. *)
Theorem errors_are_distinct :
  (forall contractName path name path',
     ContractNotFoundError contractName path
     <> ScopeResolutionError name path')
  /\ (forall contractName path name contractName',
        ContractNotFoundError contractName path
        <> MissingConstructorArgsError name contractName')
  /\ (forall name path name' contractName,
        ScopeResolutionError name path
        <> MissingConstructorArgsError name' contractName)
  /\ (forall contractName path,
        ContractNotFoundError contractName path <> UndefinedSourceInfo)
  /\ (forall name path,
        ScopeResolutionError name path <> UndefinedSourceInfo)
  /\ (forall name contractName,
        MissingConstructorArgsError name contractName <> UndefinedSourceInfo).
Proof.
  unfold ContractNotFoundError, ScopeResolutionError,
    MissingConstructorArgsError, UndefinedSourceInfo.
  repeat split; intros; simpl; discriminate.
Qed.

(** ** More on the classification *)

Section Classification.

Context {Litteral FunctionScript : Type}.

Implicit Types (options : @ContractMockOptions Litteral FunctionScript).
Implicit Types (abstracts : list FunctionDefinition).
Implicit Types (func : FunctionDefinition) (key : string).

(** X5. The classifier loses no function with a name and invents none: taken
    together, the scripted functions, the mocked functions and the abstract
    functions without name are the abstract functions, each as often as it
    occurs. *)
Theorem classification_accounts_for_abstracts options abstracts :
  (scriptedFunctions options abstracts
   ++ mockedFunctions options abstracts
   ++ List.filter (fun func => negb (truthy (func_name func))) abstracts)%list
  ≡ₚ abstracts.
Proof.
  unfold scriptedFunctions, mockedFunctions.
  induction abstracts as [| func abstracts IH]; simpl; [reflexivity |].
  destruct (truthy (func_name func)); simpl.
  - destruct (hasKey (scripted options) (func_name func)); simpl.
    + apply Permutation_skip, IH.
    + rewrite <- Permutation_middle. apply Permutation_skip, IH.
  - rewrite <- (Permutation_middle (List.filter _ abstracts)).
    rewrite <- Permutation_middle. apply Permutation_skip, IH.
Qed.

(** X6. The classifier keeps the order of declaration: the abstract functions
    come in the order of the members of the flattened contract, and the
    scripted and the mocked functions in the order of the abstract
    functions. *)
Theorem classification_keeps_order options (flat : ContractDefinition) :
  (FunctionDefinitionNode <$> abstractsOf flat) `sublist_of` subNodes flat
  /\ scriptedFunctions options (abstractsOf flat)
     `sublist_of` abstractsOf flat
  /\ mockedFunctions options (abstractsOf flat)
     `sublist_of` abstractsOf flat.
Proof.
  split; [| split; apply List_filter_sublist].
  unfold abstractsOf.
  induction (subNodes flat) as [| node nodes IH]; simpl; [constructor |].
  destruct node as [func | | | | | |]; simpl;
    try (apply sublist_cons, IH).
  destruct (func_body func); simpl;
    [apply sublist_cons, IH | apply sublist_skip, IH].
Qed.

(** X7. Adding a script for [key] moves the abstract functions named [key] to
    the scripted ones and leaves the class of every other function as it
    was. *)
Theorem adding_a_script_reclassifies options abstracts key
    (script : list FunctionScript) :
  key <> EmptyString ->
  let options' :=
    {| constructors := constructors options;
       scripted := <[key := script]> (scripted options) |} in
  (forall func, func ∈ abstracts -> func_name func = Some key ->
     (func ∈ scriptedFunctions options' abstracts)
     /\ (func ∉ mockedFunctions options' abstracts))
  /\ (forall func, func_name func <> Some key ->
        (func ∈ scriptedFunctions options' abstracts
         <-> func ∈ scriptedFunctions options abstracts)
        /\ (func ∈ mockedFunctions options' abstracts
            <-> func ∈ mockedFunctions options abstracts)).
Proof.
  intros Hkey options'.
  assert (hasProperty (scripted options') key = true) as Hown
    by (apply (hasProperty_own _ _ script), lookup_insert_eq).
  assert (forall key', key' <> key ->
            hasProperty (scripted options') key'
            = hasProperty (scripted options) key') as Hother.
  { intros key' Hne. unfold hasProperty. simpl.
    rewrite lookup_insert_ne by congruence. reflexivity. }
  split.
  - intros func Hin Hname.
    rewrite elem_of_scriptedFunctions, elem_of_mockedFunctions.
    split.
    + split; [exact Hin |]. exists key. auto.
    + intros (_ & key' & Hname' & _ & Hnone).
      assert (key' = key) as -> by congruence. congruence.
  - intros func Hname.
    rewrite !elem_of_scriptedFunctions, !elem_of_mockedFunctions.
    split; split; intros (Hin & key' & Hname' & Hkey' & Hlookup);
      (split; [exact Hin |]); exists key';
      (repeat split; [exact Hname' | exact Hkey' |]);
      rewrite Hother in * by congruence; exact Hlookup.
Qed.

End Classification.

(** ** More on [mockContract] *)

Lemma forEach_ext {A : Type} (f g : A -> exc unit) (l : list A) :
  (forall x, x ∈ l -> f x = g x) -> forEach l f = forEach l g.
Proof.
  induction l as [| x l IH]; intros Hext; simpl; [reflexivity |].
  rewrite (Hext x) by apply list_elem_of_here.
  rewrite IH; [reflexivity |].
  intros y Hy. apply Hext, list_elem_of_further, Hy.
Qed.

Lemma mapExc_ext {A B : Type} (f g : A -> exc B) (l : list A) :
  (forall x, x ∈ l -> f x = g x) -> mapExc f l = mapExc g l.
Proof.
  induction l as [| x l IH]; intros Hext; simpl; [reflexivity |].
  rewrite (Hext x) by apply list_elem_of_here.
  rewrite IH; [reflexivity |].
  intros y Hy. apply Hext, list_elem_of_further, Hy.
Qed.

Lemma List_filter_idemp {A : Type} (f : A -> bool) (l : list A) :
  List.filter f (List.filter f l) = List.filter f l.
Proof.
  induction l as [| x l IH]; simpl; [reflexivity |].
  destruct (f x) eqn:Hx; simpl; [rewrite Hx, IH |]; auto.
Qed.

Lemma hasProperty_insert_ne {V : Type} (obj : gmap string V)
    (key key' : string) (v : V) :
  key' <> key ->
  hasProperty (<[key := v]> obj) key' = hasProperty obj key'.
Proof.
  intros Hne. unfold hasProperty.
  rewrite lookup_insert_ne by congruence. reflexivity.
Qed.

Lemma getProperty_insert_ne {V : Type} (obj : gmap string V)
    (key key' : string) (v : V) :
  key' <> key ->
  getProperty (<[key := v]> obj) key' = getProperty obj key'.
Proof.
  intros Hne. unfold getProperty.
  rewrite lookup_insert_ne by congruence. reflexivity.
Qed.

Lemma hasKey_insert_ne {V : Type} (obj : gmap string V) (key : string)
    (v : V) (name : option string) :
  name <> Some key -> hasKey (<[key := v]> obj) name = hasKey obj name.
Proof.
  destruct name as [key' |]; simpl; [| reflexivity].
  intros Hne. apply hasProperty_insert_ne. congruence.
Qed.




Section Further.

Context {Litteral FunctionScript : Type}.

Variable flattenContract : Property ContractDefinition -> Flattening.
Variable makeConstructor : gmap string (list Litteral) -> exc ContractMember.
Variable exposeNode : ContractMember -> exc (list ContractMember).
Variable scriptFunction :
  FunctionDefinition -> Property (list FunctionScript) -> exc ContractMember.
Variable stubFunction : FunctionDefinition -> exc (list ContractMember).
Variable nonAbstractForcer : string -> exc ContractDefinition.
Variable userType : string -> TypeName.

Implicit Types (sources : gmap string SourceInfo) (sourceInfo : SourceInfo).
Implicit Types (path contractName key : string).
Implicit Types (options : @ContractMockOptions Litteral FunctionScript).
Implicit Types (flat parent : ContractDefinition).
Implicit Types (parents : list ContractDefinition).

Local Abbreviation mock :=
  (mockContract flattenContract makeConstructor exposeNode scriptFunction
     stubFunction nonAbstractForcer userType).
Local Abbreviation flattening sourceInfo path contractName :=
  (runFlattening (resolveInScope sourceInfo path)
     (flattenContract (getProperty (contracts sourceInfo) contractName))).

(** The call on a contract that passes the guard, once the flattening has
    returned. *)
Lemma mockContract_flattened
    sources path contractName options sourceInfo flat parents :
  sources !! path = Some sourceInfo ->
  hasProperty (contracts sourceInfo) contractName = true ->
  outcome (flattening sourceInfo path contractName) = Return (flat, parents) ->
  mock sources path contractName options
  = silent
      (_ ← checkConstructors options contractName
             (constructorsNeedingArgs parents);
       assemble makeConstructor exposeNode scriptFunction stubFunction
         nonAbstractForcer userType sourceInfo path contractName options
         flat (constructorsNeedingArgs parents)).
Proof.
  intros Hpath Hname Hflat.
  rewrite (mockContract_entry _ _ _ _ _ _ _ _ _ _ _ _ Hpath), Hname.
  unfold flattenAndMock, silent.
  rewrite (runFlattening_Return_silent _ _ _ _ Hflat), Hflat. reflexivity.
Qed.

(** X8. When the path and the contract are found, the flattening returns,
    the name of every parent that requires arguments is in
    [options.constructors] and every imported function returns,
    [mockContract] returns, and the source unit is made of what the
    functions returned. *)
Theorem mockContract_returns
    sources path contractName options sourceInfo flat parents
    (forwarder : ContractMember) (exposed : list (list ContractMember))
    (scripts : list ContractMember) (stubs : list (list ContractMember))
    (forcer : ContractDefinition) :
  sources !! path = Some sourceInfo ->
  hasProperty (contracts sourceInfo) contractName = true ->
  outcome (flattening sourceInfo path contractName) = Return (flat, parents) ->
  (forall parent, parent ∈ parents -> requiresArguments parent = true ->
                  hasProperty (constructors options) (name parent) = true) ->
  makeConstructor
    (forwardedArguments options (constructorsNeedingArgs parents))
  = Return forwarder ->
  Forall2 (fun node out => exposeNode node = Return out)
    (subNodes flat) exposed ->
  Forall2
    (fun func out =>
       scriptFunction func
         (getProperty (scripted options)
            (default EmptyString (func_name func)))
       = Return out)
    (scriptedFunctions options (abstractsOf flat)) scripts ->
  Forall2 (fun func out => stubFunction func = Return out)
    (mockedFunctions options (abstractsOf flat)) stubs ->
  nonAbstractForcer (mockContractName contractName) = Return forcer ->
  mock sources path contractName options
  = silent
      (Return
         {| children :=
              (pragmasOf (parsed sourceInfo)
               ++ [ ImportDirective path None;
                    ContractDefinitionNode
                      {| kind := Contract;
                         name := mockContractName contractName;
                         baseContracts :=
                           [ {| baseName := userType contractName |} ];
                         subNodes :=
                           forwarder :: concat exposed ++ scripts
                                        ++ concat stubs |};
                    ContractDefinitionNode forcer ])%list |}).
Proof.
  intros Hpath Hname Hflat Hargs Hforwarder Hexposed Hscripts Hstubs Hforcer.
  rewrite (mockContract_flattened _ _ _ _ _ _ _ Hpath Hname Hflat).
  assert (checkConstructors options contractName
            (constructorsNeedingArgs parents) = Return tt) as ->.
  { apply checkConstructors_Return.
    apply Forall_forall. intros key Hkey.
    apply elem_of_constructorsNeedingArgs in Hkey as (p & Hp & Hr & <-).
    apply Hargs; assumption. }
  simpl. unfold assemble, buildMock, mockSubNodes.
  rewrite Hforwarder. simpl.
  assert (flatMap (subNodes flat) exposeNode = Return (concat exposed)) as ->
    by (apply flatMap_Return; eauto).
  simpl.
  assert (mapExc (scriptOne scriptFunction options)
            (scriptedFunctions options (abstractsOf flat)) = Return scripts)
    as -> by (apply mapExc_Return, Hscripts).
  simpl.
  assert (flatMap (mockedFunctions options (abstractsOf flat)) stubFunction
          = Return (concat stubs)) as ->
    by (apply flatMap_Return; eauto).
  simpl. rewrite Hforcer. reflexivity.
Qed.

(** *** Entries of [options] that the contract does not use *)

(** X9. A script for a name that no abstract function of the flattened
    contract has is ignored: the call goes as without it. Nothing reports
    the entry that matches no function. *)
Theorem mockContract_ignores_spare_script
    sources path contractName options sourceInfo flat parents key
    (script : list FunctionScript) :
  sources !! path = Some sourceInfo ->
  hasProperty (contracts sourceInfo) contractName = true ->
  outcome (flattening sourceInfo path contractName) = Return (flat, parents) ->
  (forall func, func ∈ abstractsOf flat -> func_name func <> Some key) ->
  mock sources path contractName
    {| constructors := constructors options;
       scripted := <[key := script]> (scripted options) |}
  = mock sources path contractName options.
Proof.
  intros Hpath Hname Hflat Hspare.
  set (options' := {| constructors := constructors options;
                      scripted := <[key := script]> (scripted options) |}).
  assert (scriptedFunctions options' (abstractsOf flat)
          = scriptedFunctions options (abstractsOf flat)) as Hscripted.
  { unfold scriptedFunctions. apply filter_ext_in. intros func Hin.
    apply list_elem_of_In in Hin. simpl.
    rewrite hasKey_insert_ne by (apply Hspare, Hin). reflexivity. }
  assert (mockedFunctions options' (abstractsOf flat)
          = mockedFunctions options (abstractsOf flat)) as Hmocked.
  { unfold mockedFunctions. apply filter_ext_in. intros func Hin.
    apply list_elem_of_In in Hin. simpl.
    rewrite hasKey_insert_ne by (apply Hspare, Hin). reflexivity. }
  assert (mapExc (scriptOne scriptFunction options')
            (scriptedFunctions options (abstractsOf flat))
          = mapExc (scriptOne scriptFunction options)
              (scriptedFunctions options (abstractsOf flat))) as Hscripts.
  { apply mapExc_ext. intros func Hin.
    apply elem_of_scriptedFunctions in Hin as (Hin & key' & Hfunc & _ & _).
    unfold scriptOne. simpl. rewrite Hfunc. simpl.
    rewrite getProperty_insert_ne; [reflexivity |].
    intros ->. apply (Hspare func Hin Hfunc). }
  rewrite !(mockContract_flattened _ _ _ _ _ _ _ Hpath Hname Hflat).
  unfold assemble, buildMock, mockSubNodes.
  rewrite Hscripted, Hmocked, Hscripts. reflexivity.
Qed.

(** X10. Arguments for a name that no parent with a constructor to call has
    are ignored as well: the check does not look at them and
    [makeConstructor] does not receive them. *)
Theorem mockContract_ignores_spare_arguments
    sources path contractName options sourceInfo flat parents key
    (values : list Litteral) :
  sources !! path = Some sourceInfo ->
  hasProperty (contracts sourceInfo) contractName = true ->
  outcome (flattening sourceInfo path contractName) = Return (flat, parents) ->
  (forall parent, parent ∈ parents -> requiresArguments parent = true ->
                  name parent <> key) ->
  mock sources path contractName
    {| constructors := <[key := values]> (constructors options);
       scripted := scripted options |}
  = mock sources path contractName options.
Proof.
  intros Hpath Hname Hflat Hspare.
  set (options' := {| constructors := <[key := values]> (constructors options);
                      scripted := scripted options |}).
  assert (key ∉ constructorsNeedingArgs parents) as Hkey.
  { intros (parent & Hin & Hreq & Heq)%elem_of_constructorsNeedingArgs.
    apply (Hspare parent Hin Hreq Heq). }
  assert (checkConstructors options' contractName
            (constructorsNeedingArgs parents)
          = checkConstructors options contractName
              (constructorsNeedingArgs parents)) as Hcheck.
  { unfold checkConstructors. apply forEach_ext. intros name Hin.
    unfold options' at 1. cbn [constructors].
    rewrite hasProperty_insert_ne; [reflexivity |].
    intros ->. apply Hkey, Hin. }
  assert (forwardedArguments options' (constructorsNeedingArgs parents)
          = forwardedArguments options (constructorsNeedingArgs parents))
    as Hforwarded.
  { unfold forwardedArguments, objectFilter. simpl.
    apply map_filter_insert_not. intros y. simpl.
    rewrite bool_decide_eq_true. exact Hkey. }
  rewrite !(mockContract_flattened _ _ _ _ _ _ _ Hpath Hname Hflat).
  rewrite Hcheck.
  unfold assemble, buildMock, mockSubNodes. rewrite Hforwarded. reflexivity.
Qed.

(** *** The arguments of the parent constructors *)

(** X11. In a successful call no parent with a name of its own is left
    without arguments: every parent that declares a constructor with
    parameters, and is not named like a property that objects inherit, has
    an entry in [options.constructors], and [makeConstructor] receives that
    entry. *)
Theorem mockContract_forwards_every_constructor
    sources path contractName options sourceInfo flat parents
    (unit : SourceUnit) :
  sources !! path = Some sourceInfo ->
  outcome (flattening sourceInfo path contractName) = Return (flat, parents) ->
  outcome (mock sources path contractName options) = Return unit ->
  forall parent, parent ∈ parents -> requiresArguments parent = true ->
    inherited (name parent) = false ->
    exists values,
      constructors options !! name parent = Some values
      /\ forwardedArguments options (constructorsNeedingArgs parents)
           !! name parent = Some values.
Proof.
  intros Hpath Hflat Hcall parent Hin Hreq Hown.
  destruct (mockContract_Return _ _ _ _ _ _ _ _ _ _ _ _ Hcall)
    as (sourceInfo' & contract & flat' & parents' & _ & _ & _ & _ & _
        & Hpath' & _ & Hname & Hflat' & Hcheck & _).
  assert (sourceInfo' = sourceInfo) as -> by congruence.
  rewrite <- Hname, Hflat in Hflat'. injection Hflat' as <- <-.
  apply checkConstructors_Return in Hcheck.
  assert (name parent ∈ constructorsNeedingArgs parents) as Hkey
    by (apply elem_of_constructorsNeedingArgs; eauto).
  pose proof (proj1 (Forall_forall _ _) Hcheck _ Hkey) as Hhas.
  apply hasProperty_true in Hhas as [[values Hvalues] | Hinh];
    [| congruence].
  exists values. split; [exact Hvalues |].
  apply lookup_forwardedArguments. eauto.
Qed.

(** *** What [mockContract] reads of the scope *)


(** *** The pragmas of the mock file *)

(** X13. The source unit that [mockContract] returns has the pragma
    directives of the parsed file, no more and no fewer: what it adds is no
    pragma. *)
Theorem mockContract_keeps_pragmas
    sources path contractName options sourceInfo (unit : SourceUnit) :
  sources !! path = Some sourceInfo ->
  outcome (mock sources path contractName options) = Return unit ->
  pragmasOf unit = pragmasOf (parsed sourceInfo).
Proof.
  intros Hpath Hcall.
  destruct (mockContract_Return _ _ _ _ _ _ _ _ _ _ _ _ Hcall)
    as (sourceInfo' & contract & flat & parents & forwarder & exposed
        & scripts & stubs & forcer & Hpath' & _ & _ & _ & _ & _ & _ & _ & _
        & _ & Hchildren).
  assert (sourceInfo' = sourceInfo) as -> by congruence.
  unfold pragmasOf at 1. rewrite Hchildren, List.filter_app. simpl.
  unfold pragmasOf. rewrite List_filter_idemp. apply app_nil_r.
Qed.

End Further.

(** ** The further properties on the [Token] scenario *)

Section FurtherOnScenario.

Import Scenario.

Local Abbreviation at_scenario statement :=
  (statement flattenContract makeConstructor exposeNode scriptFunction
     stubFunction nonAbstractForcer userType).

Lemma mockContractName_inj_witness :
  mockContractName "Token" = mockContractName ("Tok" +:+ "en")
  /\ "Token" = "Tok" +:+ "en".
Proof.
  assert (mockContractName "Token" = mockContractName ("Tok" +:+ "en"))
    as Heq by reflexivity.
  split; [exact Heq |].
  exact (mockContractName_inj "Token" ("Tok" +:+ "en") Heq).
Defined.

Lemma adding_a_script_reclassifies_witness :
  "cap" <> EmptyString
  /\ (cap ∈ abstractsOf (merge Token [Ownable; Plain]))
  /\ (cap ∈ mockedFunctions options
             (abstractsOf (merge Token [Ownable; Plain])))
  /\ (cap ∈ scriptedFunctions optionsWithCap
             (abstractsOf (merge Token [Ownable; Plain])))
  /\ (cap ∉ mockedFunctions optionsWithCap
             (abstractsOf (merge Token [Ownable; Plain]))).
Proof.
  assert ("cap" <> EmptyString) as Hkey by discriminate.
  assert (cap ∈ abstractsOf (merge Token [Ownable; Plain])) as Hin
    by (vm_compute; repeat constructor).
  split; [exact Hkey |]. split; [exact Hin |].
  split; [vm_compute; repeat constructor |].
  exact (proj1 (adding_a_script_reclassifies options
                  (abstractsOf (merge Token [Ownable; Plain])) "cap" ["9"]
                  Hkey)
           cap Hin eq_refl).
Defined.

Lemma mockContract_returns_witness :
  sources !! "Token.sol" = Some tokenSol
  /\ hasProperty (contracts tokenSol) "Token" = true
  /\ mock sources "Token.sol" "Token" options = silent (Return tokenMock).
Proof.
  assert (sources !! "Token.sol" = Some tokenSol) as Hpath
    by (vm_compute; reflexivity).
  assert (hasProperty (contracts tokenSol) "Token" = true) as Hname
    by (vm_compute; reflexivity).
  split; [exact Hpath |]. split; [exact Hname |].
  apply (at_scenario mockContract_returns
           sources "Token.sol" "Token" options tokenSol
           (merge Token [Ownable; Plain]) [Ownable; Plain]
           (forwarding ["Ownable"])
           [ [StateVariableDeclaration "ownerGet"]; []; []; []; []; [] ]
           [ FunctionDefinitionNode
               (withBody rate {| statements := ["5"; "7"] |}) ]
           [ [FunctionDefinitionNode (withBody cap emptyBody)] ]
           {| kind := Contract;
              name := "TokenMockNonAbstractForcer";
              baseContracts := [];
              subNodes := [] |}
           Hpath Hname).
  - vm_compute. reflexivity.
  - intros parent Hin Hreq.
    apply elem_of_cons in Hin as [-> | Hin]; [vm_compute; reflexivity |].
    apply list_elem_of_singleton in Hin as ->. discriminate Hreq.
  - vm_compute. reflexivity.
  - vm_compute. repeat constructor.
  - vm_compute. repeat constructor.
  - vm_compute. repeat constructor.
  - reflexivity.
Defined.

Lemma mockContract_ignores_spare_script_witness :
  (forall func, func ∈ abstractsOf (merge Token [Ownable; Plain]) ->
                func_name func <> Some "total")
  /\ mock sources "Token.sol" "Token" optionsWithSpareScript
     = mock sources "Token.sol" "Token" options.
Proof.
  assert (forall func, func ∈ abstractsOf (merge Token [Ownable; Plain]) ->
                       func_name func <> Some "total") as Hspare.
  { intros func Hin.
    change (abstractsOf (merge Token [Ownable; Plain])) with [rate; cap] in Hin.
    apply elem_of_cons in Hin as [-> | Hin]; [discriminate |].
    apply list_elem_of_singleton in Hin as ->. discriminate. }
  split; [exact Hspare |].
  apply (at_scenario mockContract_ignores_spare_script
           sources "Token.sol" "Token" options tokenSol
           (merge Token [Ownable; Plain]) [Ownable; Plain] "total" ["1"]);
    [vm_compute; reflexivity .. | exact Hspare].
Defined.

Lemma mockContract_ignores_spare_arguments_witness :
  (forall parent, parent ∈ [Ownable; Plain] ->
                  requiresArguments parent = true ->
                  name parent <> "Elsewhere")
  /\ mock sources "Token.sol" "Token" optionsWithSpareArguments
     = mock sources "Token.sol" "Token" options.
Proof.
  assert (forall parent, parent ∈ [Ownable; Plain] ->
                         requiresArguments parent = true ->
                         name parent <> "Elsewhere") as Hspare.
  { intros parent Hin _.
    apply elem_of_cons in Hin as [-> | Hin]; [discriminate |].
    apply list_elem_of_singleton in Hin as ->. discriminate. }
  split; [exact Hspare |].
  apply (at_scenario mockContract_ignores_spare_arguments
           sources "Token.sol" "Token" options tokenSol
           (merge Token [Ownable; Plain]) [Ownable; Plain] "Elsewhere" ["2"]);
    [vm_compute; reflexivity .. | exact Hspare].
Defined.

Lemma mockContract_forwards_every_constructor_witness :
  outcome (mock sources "Token.sol" "Token" options) = Return tokenMock
  /\ (Ownable ∈ [Ownable; Plain])
  /\ requiresArguments Ownable = true
  /\ inherited (name Ownable) = false
  /\ exists values,
       constructors options !! name Ownable = Some values
       /\ forwardedArguments options (constructorsNeedingArgs [Ownable; Plain])
            !! name Ownable = Some values.
Proof.
  assert (outcome (mock sources "Token.sol" "Token" options)
          = Return tokenMock)
    as Hcall by (vm_compute; reflexivity).
  assert (Ownable ∈ [Ownable; Plain]) as Hin by apply list_elem_of_here.
  split; [exact Hcall |]. split; [exact Hin |]. split; [reflexivity |].
  split; [reflexivity |].
  assert (sources !! "Token.sol" = Some tokenSol) as Hpath
    by (vm_compute; reflexivity).
  assert (outcome (runFlattening (resolveInScope tokenSol "Token.sol")
                     (flattenContract
                        (getProperty (contracts tokenSol) "Token")))
          = Return (merge Token [Ownable; Plain], [Ownable; Plain]))
    as Hflat by (vm_compute; reflexivity).
  exact (at_scenario mockContract_forwards_every_constructor
           sources "Token.sol" "Token" options tokenSol
           (merge Token [Ownable; Plain]) [Ownable; Plain] tokenMock
           Hpath Hflat Hcall Ownable Hin eq_refl eq_refl).
Defined.


Lemma mockContract_keeps_pragmas_witness :
  sources !! "Token.sol" = Some tokenSol
  /\ outcome (mock sources "Token.sol" "Token" options) = Return tokenMock
  /\ pragmasOf tokenMock = pragmasOf (parsed tokenSol).
Proof.
  assert (sources !! "Token.sol" = Some tokenSol) as Hpath
    by (vm_compute; reflexivity).
  assert (outcome (mock sources "Token.sol" "Token" options)
          = Return tokenMock)
    as Hcall by (vm_compute; reflexivity).
  split; [exact Hpath |]. split; [exact Hcall |].
  exact (at_scenario mockContract_keeps_pragmas
           sources "Token.sol" "Token" options tokenSol tokenMock
           Hpath Hcall).
Defined.

End FurtherOnScenario.
